(** * ollama-mattermost-bot: the polling / reply pipeline of [bot.py]

    A shallow embedding of [src/bot.py] and the properties of its
    message-ingestion loop ([message_poller]), its reply worker
    ([message_processor]) and its inference wrapper ([get_ollama_response]).

    The Python module keeps four module-level objects
    ([last_processed_timestamp], [last_poll_time], [message_queue],
    [user_context]) and talks to three outside parties (the Mattermost
    driver, the Ollama HTTP endpoint, the wall clock).  The globals become the
    fields of one state record; the outside parties become an interface
    ([Externals]) over an abstract [World], so that every call may answer
    differently and may raise.  The code is then written in a state-and-
    exception monad, statement by statement.

    Conventions.  Timestamps of posts and polls are milliseconds, instants
    of [datetime] are microseconds, both in [Z].  A dict read with a fixed
    set of keys ([channel["id"]], [post["message"]], ...) is a record, a dict
    used as a map is a [gmap].  The two threads share the state record; the
    poller's decision for one post and the worker's turn are the atomic
    actions ([bot_step]).

    Printing.  [print] raises [UnicodeEncodeError] when stdout cannot encode
    the text, which a string that came out of JSON can bring about.  Every
    [print] that interpolates free text (the text of a post, the display
    name of a channel or of the team, the reply of Ollama) is therefore a
    call to the console ([Console]) that may raise.  The other prints write
    constants, numbers, ids and usernames, [repr]-escaped values, decoded
    response bodies or the message of a caught exception; they are left
    out, as is [time.sleep]. *)

From Stdlib Require Import ZArith Lia List Bool Sorted.
From stdpp Require Import base gmap strings list fin_maps pretty sorting.

Local Open Scope string_scope.
Local Open Scope list_scope.
Local Open Scope Z_scope.

(** ** Python values used by the bot *)

(** Exceptions that the modelled statements can raise.  [DriverError] stands
    for anything thrown by the Mattermost driver, [RequestException] for
    anything thrown by [requests.post]. *)
Inductive exn :=
  | DriverError (msg : string)
  | RequestException
  | JSONDecodeError
  | KeyError (key : string)
  | OverflowError
  | UnicodeEncodeError.

Inductive outcome (A : Type) :=
  | Ok (a : A)
  | Raise (e : exn).
Arguments Ok {A} a.
Arguments Raise {A} e.

(** The conversation context handed back by Ollama: a JSON array of token
    ids, or the string that the code itself uses as a default ([""]). *)
Inductive ollama_context :=
  | CtxStr (s : string)
  | CtxTokens (toks : list Z).

(** Python truthiness, as used by [if ... and context:]. *)
Definition truthy (c : ollama_context) : bool :=
  match c with
  | CtxStr s => negb (String.eqb s "")
  | CtxTokens toks => negb (match toks with [] => true | _ => false end)
  end.

(** [needle in hay] on Python strings. *)
Fixpoint str_contains (needle hay : string) : bool :=
  String.prefix needle hay ||
  match hay with
  | EmptyString => false
  | String _ hay' => str_contains needle hay'
  end.

(** *** [float(n)] for a Python int [n]

    Doubles carry 53 bits of mantissa: an int is rounded to the nearest
    representable value, ties to the even mantissa, and the conversion raises
    [OverflowError] once the rounded magnitude reaches [2^1024].  The value of
    a float obtained this way is an integer, so it is kept in [Z]. *)
Definition round_53 (z : Z) : Z :=
  if z <? 2 ^ 53 then z
  else
    let e := Z.log2 z - 52 in
    let q := z / 2 ^ e in
    let r := z mod 2 ^ e in
    let q' :=
      if 2 * r <? 2 ^ e then q
      else if 2 ^ e <? 2 * r then q + 1
      else if Z.even q then q else q + 1 in
    q' * 2 ^ e.

Definition py_float (n : Z) : outcome Z :=
  let f := Z.sgn n * round_53 (Z.abs n) in
  if 2 ^ 1024 <=? Z.abs f then Raise OverflowError else Ok f.

(** ** Data exchanged with the collaborators *)

Record Channel := MkChannel {
  ch_id : string;              (* channel["id"] *)
  ch_type : string;            (* channel["type"] *)
  ch_display_name : string;    (* channel["display_name"] *)
}.

Record Post := MkPost {
  post_user_id : string;       (* post["user_id"] *)
  post_message : string;       (* post["message"] *)
  post_create_at : Z;          (* post["create_at"], milliseconds *)
}.

(** The answer of [get_posts_for_channel]: [{"order": [...], "posts": {...}}]. *)
Record PostList := MkPostList {
  pl_order : list string;
  pl_posts : gmap string Post;
}.

Record User := MkUser {
  user_username : string;      (* user["username"] *)
}.

(** The tuple put on [message_queue]:
    [(channel_id, message_text, sender_username, message_time)]. *)
Record QueueEvent := MkEvent {
  ev_channel_id : string;
  ev_message_text : string;
  ev_sender_username : string;
  ev_message_time : Z;
}.

(** The JSON body sent to Ollama ([data] in [get_ollama_response]). *)
Record OllamaRequest := MkRequest {
  req_model : string;
  req_prompt : string;
  req_context : option ollama_context;   (* the key "context" is present or not *)
}.

(** The parsed body of a 200 answer: both keys are optional. *)
Record OllamaJson := MkJson {
  json_response : option string;
  json_context : option ollama_context;
}.

(** The object returned by [requests.post]: [response.status_code] and
    [response.json()], which raises when the body is not JSON. *)
Record Response := MkResponse {
  status_code : Z;
  response_json : outcome OllamaJson;
}.

(** ** Configuration

    [boot_time] is read once when the module is loaded; [bot_user_id] and
    [bot_username] once when [message_poller] starts. *)
Record Config := MkConfig {
  OLLAMA_MODEL : string;
  ENABLE_CONTEXT_TRACKING : bool;
  boot_time : Z;
  bot_user_id : string;
  bot_username : string;
}.

(** [CONTEXT_EXPIRATION_DURATION = timedelta(minutes=4)], in microseconds
    (the resolution of [datetime]). *)
Definition CONTEXT_EXPIRATION_DURATION : Z := 4 * 60 * 1000000.

(** ** The outside world *)

Class Externals (World : Type) := {
  (* driver.channels.get_channels_for_user(...) *)
  get_channels_for_user : World -> outcome (list Channel) * World;
  (* driver.posts.get_posts_for_channel(id, params={"since": t}) *)
  get_posts_for_channel : string -> Z -> World -> outcome PostList * World;
  (* driver.users.get_user(id) *)
  get_user : string -> World -> outcome User * World;
  (* driver.posts.create_post({...}) *)
  create_post : string -> string -> World -> outcome unit * World;
  (* requests.post(OLLAMA_API_URL, json=data, headers=headers) *)
  requests_post : OllamaRequest -> World -> outcome Response * World;
  (* datetime.now(), microseconds *)
  datetime_now : World -> Z * World;
  (* int(datetime.now().timestamp() * 1000), milliseconds *)
  now_millis : World -> Z * World;
}.

(** Standard output. *)
Class Console (World : Type) := {
  (* print(text) *)
  print : string -> World -> outcome unit * World;
}.

(** ** The lines printed with free text in them *)

(** Line 122: [f"Ollama response: {bot_response}"] *)
Definition line_ollama_response (bot_response : string) : string :=
  String.append "Ollama response: " bot_response.

(** Line 169: [f"Bot is now monitoring messages in the team
    '{team['display_name']}'..."] *)
Definition line_monitoring (team_display_name : string) : string :=
  String.concat ""
    ["Bot is now monitoring messages in the team '"; team_display_name;
     "'..."].

(** Line 197: [f"[DEBUG] Skipping old message in channel
    {channel['display_name']}: {message_text}"] *)
Definition line_skipping_old (channel : Channel) (message_text : string)
  : string :=
  String.concat ""
    ["[DEBUG] Skipping old message in channel "; ch_display_name channel;
     ": "; message_text].

(** Line 203: [f"[DEBUG] Skipping already processed message in
    {channel['display_name']}: {message_text}"] *)
Definition line_skipping_processed (channel : Channel) (message_text : string)
  : string :=
  String.concat ""
    ["[DEBUG] Skipping already processed message in ";
     ch_display_name channel; ": "; message_text].

(** Line 213: [f"[DEBUG] Bot not mentioned in {channel['display_name']} by
    {sender_username}, skipping message."] *)
Definition line_not_mentioned (channel : Channel) (sender_username : string)
  : string :=
  String.concat ""
    ["[DEBUG] Bot not mentioned in "; ch_display_name channel; " by ";
     sender_username; ", skipping message."].

(** Line 217: [f"Received new message in {channel['display_name'] or 'DM'}
    from {sender_username}: {message_text}"] *)
Definition line_received (channel : Channel)
  (sender_username message_text : string) : string :=
  String.concat ""
    ["Received new message in ";
     (if String.eqb (ch_display_name channel) "" then "DM"
      else ch_display_name channel);
     " from "; sender_username; ": "; message_text].

(** Line 222: [f"[DEBUG] Message queued for processing from
    {sender_username} in {channel['display_name']}."] *)
Definition line_queued (channel : Channel) (sender_username : string)
  : string :=
  String.concat ""
    ["[DEBUG] Message queued for processing from "; sender_username; " in ";
     ch_display_name channel; "."].

Arguments line_ollama_response : simpl never.
Arguments line_monitoring : simpl never.
Arguments line_skipping_old : simpl never.
Arguments line_skipping_processed : simpl never.
Arguments line_not_mentioned : simpl never.
Arguments line_received : simpl never.
Arguments line_queued : simpl never.

(** ** Program state and the monad *)

Record pystate (World : Type) := MkState {
  world : World;
  last_processed_timestamp : gmap string Z;
  last_poll_time : gmap string Z;
  message_queue : list QueueEvent;          (* head = next to be consumed *)
  user_context : gmap string (ollama_context * Z);
}.
Arguments MkState {World}.
Arguments world {World}.
Arguments last_processed_timestamp {World}.
Arguments last_poll_time {World}.
Arguments message_queue {World}.
Arguments user_context {World}.

Section Monad.
Context {World : Type}.

Definition M (A : Type) : Type := pystate World -> outcome A * pystate World.

Definition ret {A} (a : A) : M A := fun s => (Ok a, s).

Definition bind {A B} (m : M A) (k : A -> M B) : M B :=
  fun s =>
    match m s with
    | (Ok a, s') => k a s'
    | (Raise e, s') => (Raise e, s')
    end.

Definition raise {A} (e : exn) : M A := fun s => (Raise e, s).

(** [try: body  except Exception as e: handler] *)
Definition try_except {A} (body : M A) (handler : exn -> M A) : M A :=
  fun s =>
    match body s with
    | (Ok a, s') => (Ok a, s')
    | (Raise e, s') => handler e s'
    end.

End Monad.
Arguments M : clear implicits.

Notation "'let!' x ':=' m 'in' k" := (bind m (fun x => k))
  (at level 10, x name, m at level 100, k at level 200).
Notation "m ;; k" := (bind m (fun _ => k))
  (at level 100, k at level 200, right associativity).

Section Program.
Context {World : Type} `{!Externals World} `{!Console World}.
Local Abbreviation M := (M World).

(** [for x in xs: body]; a [continue] in the body is the body returning. *)
Fixpoint for_each {A} (xs : list A) (body : A -> M unit) : M unit :=
  match xs with
  | [] => ret tt
  | x :: xs' => body x ;; for_each xs' body
  end.

Definition when (b : bool) (m : M unit) : M unit := if b then m else ret tt.

Definition get_state : M (pystate World) := fun s => (Ok s, s).

(** Field updates of the state record. *)
Definition with_world (s : pystate World) (w : World) : pystate World :=
  MkState w (last_processed_timestamp s) (last_poll_time s) (message_queue s)
    (user_context s).

Definition with_last_processed_timestamp (s : pystate World)
  (d : gmap string Z) : pystate World :=
  MkState (world s) d (last_poll_time s) (message_queue s) (user_context s).

Definition with_last_poll_time (s : pystate World) (d : gmap string Z)
  : pystate World :=
  MkState (world s) (last_processed_timestamp s) d (message_queue s)
    (user_context s).

Definition with_message_queue (s : pystate World) (q : list QueueEvent)
  : pystate World :=
  MkState (world s) (last_processed_timestamp s) (last_poll_time s) q
    (user_context s).

Definition with_user_context (s : pystate World)
  (d : gmap string (ollama_context * Z)) : pystate World :=
  MkState (world s) (last_processed_timestamp s) (last_poll_time s)
    (message_queue s) d.

(** A call that may raise. *)
Definition call {A} (f : World -> outcome A * World) : M A :=
  fun s => let '(r, w) := f (world s) in (r, with_world s w).

(** A call that cannot raise. *)
Definition call_total {A} (f : World -> A * World) : M A :=
  call (fun w => let '(a, w') := f w in (Ok a, w')).

(** [last_processed_timestamp[k] = v] *)
Definition set_last_processed_timestamp (k : string) (v : Z) : M unit :=
  fun s =>
    (Ok tt,
     with_last_processed_timestamp s (<[k := v]> (last_processed_timestamp s))).

(** [last_poll_time[k] = v] *)
Definition set_last_poll_time (k : string) (v : Z) : M unit :=
  fun s => (Ok tt, with_last_poll_time s (<[k := v]> (last_poll_time s))).

(** [user_context[k] = v] *)
Definition set_user_context (k : string) (v : ollama_context * Z) : M unit :=
  fun s => (Ok tt, with_user_context s (<[k := v]> (user_context s))).

(** [message_queue.put(ev)]: the queue is unbounded, [put] never blocks. *)
Definition queue_put (ev : QueueEvent) : M unit :=
  fun s => (Ok tt, with_message_queue s (message_queue s ++ [ev])).

(** [d[k]] on a dict: [KeyError] when the key is missing. *)
Definition subscript {V} (d : gmap string V) (k : string) : M V :=
  match d !! k with
  | Some v => ret v
  | None => raise (KeyError k)
  end.

Definition lift_outcome {A} (r : outcome A) : M A :=
  match r with
  | Ok a => ret a
  | Raise e => raise e
  end.

(** [k in d] on a dict. *)
Definition contains_key {V} (d : gmap string V) (k : string) : bool :=
  match d !! k with
  | Some _ => true
  | None => false
  end.

Variable cfg : Config.

(** ** [post_message_to_mattermost] (lines 52-56) *)
Definition post_message_to_mattermost (channel_id message : string) : M unit :=
  call (create_post channel_id message).

(** ** [get_ollama_response] (lines 59-91)

    Its prints write the [repr] of [data], the status code, the decoded
    body and the message of a caught exception.  Both failure paths return
    the error text together with the empty string as context. *)
Definition get_ollama_response (prompt : string)
  (context : option ollama_context) : M (string * ollama_context) :=
  let data :=
    MkRequest (OLLAMA_MODEL cfg) prompt
      (* if ENABLE_CONTEXT_TRACKING and context: data["context"] = context *)
      (match context with
       | Some c => if ENABLE_CONTEXT_TRACKING cfg && truthy c then Some c else None
       | None => None
       end) in
  try_except
    (let! response := call (requests_post data) in
     if status_code response =? 200 then
       let! ollama_response := lift_outcome (response_json response) in
       ret (default "No response from Ollama" (json_response ollama_response),
            default (CtxStr "") (json_context ollama_response))
     else
       ret (String.append "Error: Ollama returned status code "
              (pretty (status_code response)),
            CtxStr ""))
    (fun e => ret ("Error: Unable to get a response from Ollama.", CtxStr "")).

(** ** [message_processor] (lines 94-142) *)

(** Lines 104-113: create the entry on first sight of the user, read it, and
    reset the local [context] when the entry is older than the window. *)
Definition resolve_context (user_id : string) (current_time : Z)
  : M ollama_context :=
  let! s := get_state in
  when (negb (contains_key (user_context s) user_id))
    (set_user_context user_id (CtxStr "", current_time)) ;;
  let! s := get_state in
  let! entry := subscript (user_context s) user_id in
  let '(context, last_interaction_time) := entry in
  if ENABLE_CONTEXT_TRACKING cfg
     && (CONTEXT_EXPIRATION_DURATION <? current_time - last_interaction_time)
  then ret (CtxStr "")
  else ret context.

(** Lines 98-139, after the event has been taken from the queue. *)
Definition process_event (ev : QueueEvent) : M unit :=
  let channel_id := ev_channel_id ev in
  let message_text := ev_message_text ev in
  let sender_username := ev_sender_username ev in
  let message_time := ev_message_time ev in
  let user_id := sender_username in
  let! current_time := call_total datetime_now in
  let! context := resolve_context user_id current_time in
  let! answer :=
    (if ENABLE_CONTEXT_TRACKING cfg && truthy context
     then get_ollama_response message_text (Some context)
     else get_ollama_response message_text None) in
  let '(bot_response, new_context) := answer in
  call (print (line_ollama_response bot_response)) ;;         (* line 122 *)
  when (ENABLE_CONTEXT_TRACKING cfg)
    (set_user_context user_id (new_context, current_time)) ;;
  post_message_to_mattermost channel_id bot_response ;;
  set_last_processed_timestamp channel_id message_time.

(** One turn of [while True:] in [message_processor].  [message_queue.get()]
    blocks on an empty queue: there is no turn then ([None]).  The
    [except Exception] of the loop only prints. *)
Definition message_processor_iteration (s : pystate World)
  : option (pystate World) :=
  match message_queue s with
  | [] => None
  | ev :: rest =>
      Some (snd (try_except (process_event ev) (fun e => ret tt)
                   (with_message_queue s rest)))
  end.

(** ** [bot_is_mentioned] (lines 150-152) *)
Definition bot_is_mentioned (message bot_username : string) : bool :=
  str_contains (String.append "@" bot_username) message.

(** ** [message_poller] (lines 155-231) *)

(** Lines 187-222: the body of [for post_id in reversed(posts["order"])]. *)
Definition handle_post (channel : Channel) (posts : PostList)
  (post_id : string) : M unit :=
  let! post := subscript (pl_posts posts) post_id in
  if negb (String.eqb (post_user_id post) (bot_user_id cfg)) then
    let message_text := post_message post in
    let sender_user_id := post_user_id post in
    let! message_time := lift_outcome (py_float (post_create_at post)) in
    if message_time <? boot_time cfg then
      call (print (line_skipping_old channel message_text))   (* continue *)
    else
      let! s := get_state in
      if match last_processed_timestamp s !! ch_id channel with
         | Some last => last >=? message_time
         | None => false
         end
      then
        call (print (line_skipping_processed channel message_text))
                                                              (* continue *)
      else
        let! sender_user := call (get_user sender_user_id) in
        let sender_username := user_username sender_user in
        if negb (String.eqb (ch_type channel) "D")
           && negb (bot_is_mentioned message_text (bot_username cfg))
        then
          call (print (line_not_mentioned channel sender_username))
                                                              (* continue *)
        else
          call (print (line_received channel sender_username message_text)) ;;
          queue_put (MkEvent (ch_id channel) message_text sender_username
                       message_time) ;;
          call (print (line_queued channel sender_username))
  else ret tt.

(** Lines 177-225: the body of [for channel in channels]. *)
Definition poll_channel (channel : Channel) : M unit :=
  let! s := get_state in
  when (negb (contains_key (last_poll_time s) (ch_id channel)))
    (set_last_poll_time (ch_id channel) (boot_time cfg)) ;;
  let! s := get_state in
  let! since_time := subscript (last_poll_time s) (ch_id channel) in
  let! posts := call (get_posts_for_channel (ch_id channel) since_time) in
  for_each (rev (pl_order posts)) (handle_post channel posts) ;;
  let! now := call_total now_millis in
  set_last_poll_time (ch_id channel) now.

(** Lines 172-228: one turn of [while True:], the [try] around the whole
    cycle; the handler only prints. *)
Definition poll_cycle : M unit :=
  try_except
    (let! channels := call get_channels_for_user in
     for_each channels poll_channel)
    (fun e => ret tt).

(** [n] turns of the polling loop (the loop itself never ends). *)
Fixpoint poll_cycles (n : nat) : M unit :=
  match n with
  | O => ret tt
  | S n' => poll_cycle ;; poll_cycles n'
  end.

End Program.

(** ** The start of [message_poller] (lines 145-170)

    Before the loop the poller logs in, asks the driver who the bot is and
    looks the team up; these calls are outside every [try]. *)

Record Team := MkTeam {
  team_id : string;             (* team["id"] *)
  team_display_name : string;   (* team["display_name"] *)
}.

Class StartupExternals (World : Type) := {
  (* driver.login() *)
  login : World -> outcome unit * World;
  (* driver.users.get_user("me")["id"] *)
  get_user_me : World -> outcome string * World;
  (* driver.teams.get_team_by_name(name); [None] is an answer that
     [if not team] takes as false *)
  teams_get_team_by_name : string -> World -> outcome (option Team) * World;
}.

Section Startup.
Context {World : Type} `{!Externals World} `{!Console World}
  `{!StartupExternals World}.

(** [get_team_by_name] (lines 145-147) *)
Definition get_team_by_name (team_name : string) : M World (option Team) :=
  call (teams_get_team_by_name team_name).

(** [message_poller] with [n] turns of its loop.  [base] carries the module
    constants; the bot's id and username come from the driver.  The listing
    of the channels in the loop ([get_channels_for_user] of [Externals]) is
    the one for this team and this bot. *)
Definition message_poller (base : Config) (TEAM_NAME : string) (n : nat)
  : M World unit :=
  call login ;;
  let! bot_user_id := call get_user_me in
  let! bot_user := call (get_user bot_user_id) in
  let bot_username := user_username bot_user in
  let! team := get_team_by_name TEAM_NAME in
  match team with
  | None => ret tt                                            (* return *)
  | Some team =>
      call (print (line_monitoring (team_display_name team))) ;;
      poll_cycles
        (MkConfig (OLLAMA_MODEL base) (ENABLE_CONTEXT_TRACKING base)
           (boot_time base) bot_user_id bot_username) n
  end.

End Startup.

(** ** Vocabulary of the statements *)

(** The inference call failed: [requests.post] threw, or the status is not
    200.  [get_ollama_response] then returns its error text. *)
Definition inference_failed (r : outcome Response) : Prop :=
  match r with
  | Raise _ => True
  | Ok response => status_code response <> 200
  end.

(** The conditions under which [handle_post] puts the event [ev], made from
    [post], on the queue; [cursors] is [last_processed_timestamp] as read at
    that moment. *)
Definition admitted (cfg : Config) (channel : Channel)
  (cursors : gmap string Z) (post : Post) (ev : QueueEvent) : Prop :=
  post_user_id post <> bot_user_id cfg
  /\ py_float (post_create_at post) = Ok (ev_message_time ev)
  /\ boot_time cfg <= ev_message_time ev
  /\ (forall last, cursors !! ch_id channel = Some last ->
        last < ev_message_time ev)
  /\ (ch_type channel = "D"
      \/ bot_is_mentioned (post_message post) (bot_username cfg) = true)
  /\ ev_channel_id ev = ch_id channel
  /\ ev_message_text ev = post_message post.

(** Post [a] was not created after post [b] (ids that are not in the
    dictionary impose nothing). *)
Definition not_newer (posts : gmap string Post) (a b : string) : Prop :=
  forall pa pb, posts !! a = Some pa -> posts !! b = Some pb ->
    post_create_at pa <= post_create_at pb.

(** The gateway lists the posts newest first. *)
Definition newest_first (posts : PostList) : Prop :=
  StronglySorted (flip (not_newer (pl_posts posts))) (pl_order posts).

(** Events in the order of their timestamps. *)
Definition oldest_first (evs : list QueueEvent) : Prop :=
  StronglySorted (fun a b => ev_message_time a <= ev_message_time b) evs.

(** [since_time] of a channel's fetch: its [last_poll_time], or [boot_time]
    on first sight. *)
Definition since_time_of {World} (cfg : Config) (channel : Channel)
  (s : pystate World) : Z :=
  default (boot_time cfg) (last_poll_time s !! ch_id channel).

(** [last_poll_time] once line 178-179 has run for the channel. *)
Definition poll_time_initialised {World} (cfg : Config) (channel : Channel)
  (s : pystate World) : gmap string Z :=
  match last_poll_time s !! ch_id channel with
  | Some _ => last_poll_time s
  | None => <[ch_id channel := boot_time cfg]> (last_poll_time s)
  end.

(** What the poller promises about an event it enqueues, given the cursors
    it read: not from before the boot, and newer than its channel's cursor
    when there is one. *)
Definition fresh_event (cfg : Config) (cursors : gmap string Z)
  (ev : QueueEvent) : Prop :=
  boot_time cfg <= ev_message_time ev
  /\ (forall last, cursors !! ev_channel_id ev = Some last ->
        last < ev_message_time ev).

(** From [s] to [s'] the poller has at most appended fresh events; the
    worker's maps are as they were. *)
Definition enqueues_fresh {World} (cfg : Config) (s s' : pystate World)
  : Prop :=
  last_processed_timestamp s' = last_processed_timestamp s
  /\ user_context s' = user_context s
  /\ exists new : list QueueEvent,
       message_queue s' = message_queue s ++ new
       /\ Forall (fresh_event cfg (last_processed_timestamp s)) new.

(** The two threads, as the atomic actions they take on the shared state,
    in any order: the poller handles one post of some answer, or moves the
    world and [last_poll_time] (fetches, clock readings, lines 179 and 225);
    the worker takes its turn.  The poller's control flow is forgotten, so
    every interleaving of [message_poller] and [message_processor] is a path
    of this relation. *)
Inductive bot_step {World} `{!Externals World} `{!Console World}
  (cfg : Config)
  : pystate World -> pystate World -> Prop :=
  | step_post channel posts post_id s :
      bot_step cfg s (handle_post cfg channel posts post_id s).2
  | step_bookkeeping s w polls :
      bot_step cfg s (with_last_poll_time (with_world s w) polls)
  | step_worker s s' :
      message_processor_iteration cfg s = Some s' ->
      bot_step cfg s s'.

(** What [get_ollama_response] makes of the outcome of its request: the
    pair it hands back (lines 78-91). *)
Definition ollama_reply (r : outcome Response) : string * ollama_context :=
  match r with
  | Raise _ => ("Error: Unable to get a response from Ollama.", CtxStr "")
  | Ok response =>
      if status_code response =? 200 then
        match response_json response with
        | Ok js => (default "No response from Ollama" (json_response js),
                    default (CtxStr "") (json_context js))
        | Raise _ => ("Error: Unable to get a response from Ollama.", CtxStr "")
        end
      else (String.append "Error: Ollama returned status code "
              (pretty (status_code response)), CtxStr "")
  end.

(** The worker's turn for [ev] from [s], value by value: the sender's map
    after lines 105-106, the local [context] after line 113, the request the
    turn makes, its outcome, the pair made of it and the outcome of the
    print of line 122. *)
Section Turn.
Context {World : Type} `{!Externals World} `{!Console World}.
Variable cfg : Config.

Definition turn_time (s : pystate World) : Z := (datetime_now (world s)).1.

Definition turn_entries (ev : QueueEvent) (s : pystate World)
  : gmap string (ollama_context * Z) :=
  match user_context s !! ev_sender_username ev with
  | Some _ => user_context s
  | None => <[ev_sender_username ev := (CtxStr "", turn_time s)]>
              (user_context s)
  end.

Definition turn_context (ev : QueueEvent) (s : pystate World)
  : ollama_context :=
  match user_context s !! ev_sender_username ev with
  | Some (c, last) =>
      if ENABLE_CONTEXT_TRACKING cfg
         && (CONTEXT_EXPIRATION_DURATION <? turn_time s - last)
      then CtxStr "" else c
  | None => CtxStr ""
  end.

Definition turn_request (ev : QueueEvent) (s : pystate World)
  : OllamaRequest :=
  MkRequest (OLLAMA_MODEL cfg) (ev_message_text ev)
    (if ENABLE_CONTEXT_TRACKING cfg && truthy (turn_context ev s)
     then Some (turn_context ev s) else None).

Definition turn_answer (ev : QueueEvent) (s : pystate World)
  : outcome Response * World :=
  requests_post (turn_request ev s) (datetime_now (world s)).2.

Definition turn_reply (ev : QueueEvent) (s : pystate World)
  : string * ollama_context :=
  ollama_reply (turn_answer ev s).1.

Definition turn_print (ev : QueueEvent) (s : pystate World)
  : outcome unit * World :=
  print (line_ollama_response (turn_reply ev s).1) (turn_answer ev s).2.

End Turn.

(** The text that [get_ollama_response] returns for a failed request
    (lines 88 and 91). *)
Definition failure_text (r : outcome Response) : string :=
  match r with
  | Raise _ => "Error: Unable to get a response from Ollama."
  | Ok response =>
      String.append "Error: Ollama returned status code "
        (pretty (status_code response))
  end.

(** The request gave nothing usable: it threw, the status is not 200, or the
    body of a 200 answer is not JSON. *)
Definition inference_unusable (r : outcome Response) : Prop :=
  match r with
  | Raise _ => True
  | Ok response =>
      status_code response <> 200
      \/ exists e, response_json response = Raise e
  end.

(** From [s] to [s'] only the world has moved. *)
Definition globals_untouched {World} (s s' : pystate World) : Prop :=
  last_processed_timestamp s' = last_processed_timestamp s
  /\ last_poll_time s' = last_poll_time s
  /\ message_queue s' = message_queue s
  /\ user_context s' = user_context s.

(** Every channel with a [last_poll_time] in [s] still has one in [s']. *)
Definition poll_entries_kept {World} (s s' : pystate World) : Prop :=
  forall channel_id,
    is_Some (last_poll_time s !! channel_id) ->
    is_Some (last_poll_time s' !! channel_id).

(** ** Scripted worlds

    A world whose collaborators answer from a fixed script; the concrete runs
    below are played against it. *)
Record Script := MkScript {
  sc_channels : outcome (list Channel);
  sc_posts : string -> Z -> outcome PostList;   (* by channel id and [since] *)
  sc_user : string -> outcome User;
  sc_create_post : string -> outcome unit;      (* by channel id *)
  sc_http : outcome Response;
  sc_now_us : Z;
  sc_now_ms : Z;
}.

#[global] Instance script_externals : Externals Script := {|
  get_channels_for_user w := (sc_channels w, w);
  get_posts_for_channel id since w := (sc_posts w id since, w);
  get_user id w := (sc_user w id, w);
  create_post id msg w := (sc_create_post w id, w);
  requests_post req w := (sc_http w, w);
  datetime_now w := (sc_now_us w, w);
  now_millis w := (sc_now_ms w, w);
|}.

(** The scripted console is a UTF-8 stdout: it takes every text but one with
    a lone surrogate in it, which as bytes is [ED] followed by a byte from
    [A0] to [BF]. *)
Fixpoint has_lone_surrogate (text : string) : bool :=
  match text with
  | EmptyString => false
  | String a rest =>
      match rest with
      | EmptyString => false
      | String b _ =>
          ((Ascii.nat_of_ascii a =? 237)%nat
           && (160 <=? Ascii.nat_of_ascii b)%nat
           && (Ascii.nat_of_ascii b <=? 191)%nat)
          || has_lone_surrogate rest
      end
  end.

#[global] Instance script_console : Console Script := {|
  print text w :=
    (if has_lone_surrogate text then Raise UnicodeEncodeError else Ok tt, w);
|}.

(** The surrogate [U+D800] as Python carries it in a [str]. *)
Definition lone_surrogate : string :=
  String (Ascii.ascii_of_nat 237)
    (String (Ascii.ascii_of_nat 160) (String (Ascii.ascii_of_nat 128) "")).

Definition cfg0 : Config :=
  {| OLLAMA_MODEL := "llama3"; ENABLE_CONTEXT_TRACKING := true;
     boot_time := 100; bot_user_id := "bot-id"; bot_username := "bot" |}.

(** Ollama answers 200 with text and a context of three tokens. *)
Definition http_ok : outcome Response :=
  Ok (MkResponse 200 (Ok (MkJson (Some "hi there") (Some (CtxTokens [1; 2; 3]))))).

(** Ollama answers 500. *)
Definition http_500 : outcome Response :=
  Ok (MkResponse 500 (Raise JSONDecodeError)).

(** Ollama answers 200 with a text that ends in a lone surrogate, as the
    JSON escape [\ud800] delivers it. *)
Definition http_surrogate : outcome Response :=
  Ok (MkResponse 200
        (Ok (MkJson (Some (String.append "hi " lone_surrogate))
               (Some (CtxTokens [1; 2; 3]))))).

(** A quiet world: no channels, every call succeeds, the clock stands at
    [now_us] microseconds. *)
Definition quiet_world (http : outcome Response) (now_us : Z) : Script :=
  {| sc_channels := Ok [];
     sc_posts := fun _ _ => Ok (MkPostList [] ∅);
     sc_user := fun id => Ok (MkUser id);
     sc_create_post := fun _ => Ok tt;
     sc_http := http;
     sc_now_us := now_us;
     sc_now_ms := now_us / 1000 |}.

Definition empty_state (w : Script) : pystate Script :=
  MkState w ∅ ∅ [] ∅.

(** Alice has a context of two tokens, last touched at second 10. *)
Definition state_alice (http : outcome Response) (now_us : Z) : pystate Script :=
  MkState (quiet_world http now_us) ∅ ∅ []
    {[ "alice" := (CtxTokens [7; 8], 10000000) ]}.

(** Three channels of the team; the last one is a direct-message channel. *)
Definition town_square : Channel := MkChannel "town-square" "O" "Town Square".
Definition off_topic : Channel := MkChannel "off-topic" "O" "Off-Topic".
Definition dm_alice : Channel := MkChannel "dm-alice" "D" "".

Definition post_hello : Post := MkPost "alice-id" "@bot hello" 200.

(** The fetch for [off-topic] fails; every other channel has one post that
    mentions the bot.  The clock reads 5000 ms. *)
Definition world_one_down (channels : list Channel) : Script :=
  {| sc_channels := Ok channels;
     sc_posts := fun id _ =>
       if String.eqb id "off-topic" then Raise (DriverError "503")
       else Ok (MkPostList ["p1"] {[ "p1" := post_hello ]});
     sc_user := fun _ => Ok (MkUser "alice");
     sc_create_post := fun _ => Ok tt;
     sc_http := http_ok;
     sc_now_us := 5000000;
     sc_now_ms := 5000 |}.

(** [off-topic] was last polled at 3000 ms. *)
Definition state_polled_before : pystate Script :=
  MkState (world_one_down [off_topic]) ∅ {[ "off-topic" := 3000 ]} [] ∅.

(** Alice writes "one" at 150 ms and "@bot two" at 200 ms.  The first poll
    (since the boot, 100 ms) sees both, newest first.  She then edits the
    first message into "@bot one"; the second poll (since 5000 ms) gets the
    edited post, whose [create_at] is still 150. *)
Definition world_edited_post : Script :=
  {| sc_channels := Ok [town_square];
     sc_posts := fun _ since =>
       if since =? 100 then
         Ok (MkPostList ["p2"; "p1"]
               {[ "p2" := MkPost "alice-id" "@bot two" 200;
                  "p1" := MkPost "alice-id" "one" 150 ]})
       else
         Ok (MkPostList ["p1"]
               {[ "p1" := MkPost "alice-id" "@bot one" 150 ]});
     sc_user := fun _ => Ok (MkUser "alice");
     sc_create_post := fun _ => Ok tt;
     sc_http := http_ok;
     sc_now_us := 5000000;
     sc_now_ms := 5000 |}.

(** The answer of the first poll of that story. *)
Definition posts_first_poll : PostList :=
  MkPostList ["p2"; "p1"]
    {[ "p2" := MkPost "alice-id" "@bot two" 200;
       "p1" := MkPost "alice-id" "one" 150 ]}.

(** Alice mentions the bot twice, at 150 ms and at 200 ms; one poll sees
    both, newest first. *)
Definition posts_two_mentions : PostList :=
  MkPostList ["p2"; "p1"]
    {[ "p2" := MkPost "alice-id" "@bot two" 200;
       "p1" := MkPost "alice-id" "@bot one" 150 ]}.

Definition world_two_mentions : Script :=
  {| sc_channels := Ok [town_square];
     sc_posts := fun _ _ => Ok posts_two_mentions;
     sc_user := fun _ => Ok (MkUser "alice");
     sc_create_post := fun _ => Ok tt;
     sc_http := http_ok;
     sc_now_us := 5000000;
     sc_now_ms := 5000 |}.

(** A message whose text ends in a lone surrogate, as JSON can deliver it. *)
Definition posts_surrogate : PostList :=
  MkPostList ["p5"]
    {[ "p5" := MkPost "alice-id" (String.append "hi " lone_surrogate) 300 ]}.

(** The two events of that story. *)
Definition ev_200 : QueueEvent := MkEvent "town-square" "@bot two" "alice" 200.
Definition ev_150 : QueueEvent := MkEvent "town-square" "@bot one" "alice" 150.

(** The state after the two polls, before the worker has had a turn. *)
Definition state_two_waiting : pystate Script :=
  (poll_cycles cfg0 2 (empty_state world_edited_post)).2.

(** The state after the worker's first turn. *)
Definition state_after_200 : pystate Script :=
  default state_two_waiting (message_processor_iteration cfg0 state_two_waiting).

(** The state after the worker's second turn. *)
Definition state_after_150 : pystate Script :=
  default state_after_200 (message_processor_iteration cfg0 state_after_200).

(** An answer with three posts, newest first: Alice at 300 without a
    mention, the bot's own reply at 250, Alice at 50 (before the boot). *)
Definition posts_mixed : PostList :=
  MkPostList ["p3"; "p2"; "p0"]
    {[ "p3" := MkPost "alice-id" "thanks" 300;
       "p2" := MkPost "bot-id" "hi there" 250;
       "p0" := MkPost "alice-id" "@bot anyone?" 50 ]}.

Definition world_mixed (channel : Channel) : Script :=
  {| sc_channels := Ok [channel];
     sc_posts := fun _ _ => Ok posts_mixed;
     sc_user := fun _ => Ok (MkUser "alice");
     sc_create_post := fun _ => Ok tt;
     sc_http := http_ok;
     sc_now_us := 5000000;
     sc_now_ms := 5000 |}.

(** The same, but the lookup of the sender fails. *)
Definition world_lookup_down : Script :=
  {| sc_channels := Ok [dm_alice];
     sc_posts := fun _ _ => Ok posts_mixed;
     sc_user := fun _ => Raise (DriverError "404");
     sc_create_post := fun _ => Ok tt;
     sc_http := http_ok;
     sc_now_us := 5000000;
     sc_now_ms := 5000 |}.

(** The driver at start-up: the bot is [bot-id], the team is unknown. *)
#[global] Instance script_startup : StartupExternals Script := {|
  login w := (Ok tt, w);
  get_user_me w := (Ok "bot-id", w);
  teams_get_team_by_name name w := (Ok None, w);
|}.

(** Ollama answers, but posting to the channel fails. *)
Definition world_post_down : Script :=
  {| sc_channels := Ok [];
     sc_posts := fun _ _ => Ok (MkPostList [] ∅);
     sc_user := fun id => Ok (MkUser id);
     sc_create_post := fun _ => Raise (DriverError "403");
     sc_http := http_ok;
     sc_now_us := 11000000;
     sc_now_ms := 11000 |}.

(** [cfg0] with context tracking switched off. *)
Definition cfg_off : Config :=
  {| OLLAMA_MODEL := "llama3"; ENABLE_CONTEXT_TRACKING := false;
     boot_time := 100; bot_user_id := "bot-id"; bot_username := "bot" |}.

(** Alice's message in her direct-message channel, as an event. *)
Definition ev_thanks : QueueEvent := MkEvent "dm-alice" "thanks" "alice" 300.

(** The cursor of [dm-alice] stands at 300. *)
Definition state_cursor_300 : pystate Script :=
  MkState (world_mixed dm_alice) {[ "dm-alice" := 300 ]} ∅ [] ∅.

(** * Properties *)

Section WorkerProofs.
Context {World : Type} `{!Externals World} `{!Console World}.
Variable cfg : Config.

Implicit Types (s : pystate World) (ev : QueueEvent).

(** ** The context store: lines 104-113 *)

Lemma resolve_context_present user_id t s c last :
  user_context s !! user_id = Some (c, last) ->
  resolve_context cfg user_id t s
  = (Ok (if ENABLE_CONTEXT_TRACKING cfg
            && (CONTEXT_EXPIRATION_DURATION <? t - last)
         then CtxStr "" else c), s).
Proof.
  intros Hlook.
  unfold resolve_context, bind, get_state, contains_key, subscript, when.
  rewrite Hlook. cbn. rewrite Hlook. cbn.
  by destruct (_ && _).
Qed.

Lemma resolve_context_absent user_id t s :
  user_context s !! user_id = None ->
  resolve_context cfg user_id t s
  = (Ok (CtxStr ""),
     with_user_context s (<[user_id := (CtxStr "", t)]> (user_context s))).
Proof.
  intros Hlook.
  unfold resolve_context, bind, get_state, contains_key, subscript, when.
  rewrite Hlook. cbn. rewrite lookup_insert_eq. cbn.
  by destruct (_ && _).
Qed.

(** [resolve_context] never raises and leaves every field but
    [user_context] alone. *)
Lemma resolve_context_run user_id t s :
  exists c uc,
    resolve_context cfg user_id t s = (Ok c, with_user_context s uc)
    /\ is_Some (uc !! user_id)
    /\ (forall e, user_context s !! user_id = Some e -> uc = user_context s).
Proof.
  destruct (user_context s !! user_id) as [[c last]|] eqn:Hlook.
  - eexists _, (user_context s).
    rewrite (resolve_context_present _ _ _ _ _ Hlook).
    split; [by destruct s | split; [by rewrite Hlook | done]].
  - eexists _, _. rewrite (resolve_context_absent _ _ _ Hlook).
    split; [done | split; [by rewrite lookup_insert_eq | done]].
Qed.

(** ** [get_ollama_response] *)

(** It catches everything: the caller always gets a pair back, and only the
    world has moved. *)
Lemma get_ollama_response_run prompt context s :
  exists txt ctx w,
    get_ollama_response cfg prompt context s = (Ok (txt, ctx), with_world s w).
Proof.
  unfold get_ollama_response, try_except, bind, call, lift_outcome, ret, raise.
  destruct (requests_post _ (world s)) as [[response|e] w]; cbn; [|by eauto].
  destruct (status_code response =? 200); cbn; [|by eauto].
  destruct (response_json response); cbn; eauto.
Qed.

(** The wrapper makes one request and turns every outcome into a pair. *)
Lemma get_ollama_response_flat prompt context s :
  get_ollama_response cfg prompt context s
  = (Ok (ollama_reply
           (requests_post
              (MkRequest (OLLAMA_MODEL cfg) prompt
                 (match context with
                  | Some c =>
                      if ENABLE_CONTEXT_TRACKING cfg && truthy c
                      then Some c else None
                  | None => None
                  end)) (world s)).1),
     with_world s
       (requests_post
          (MkRequest (OLLAMA_MODEL cfg) prompt
             (match context with
              | Some c =>
                  if ENABLE_CONTEXT_TRACKING cfg && truthy c
                  then Some c else None
              | None => None
              end)) (world s)).2).
Proof.
  unfold get_ollama_response, try_except, bind, call, lift_outcome, ret, raise,
    ollama_reply.
  destruct (requests_post _ (world s)) as [[response|e] w]; cbn; [|done].
  destruct (status_code response =? 200); cbn; [|done].
  by destruct (response_json response).
Qed.

(** A failed request yields the failure text and the empty context. *)
Lemma ollama_reply_failed r :
  inference_failed r -> ollama_reply r = (failure_text r, CtxStr "").
Proof.
  destruct r as [response|e]; cbn; [|done]. intros Hne.
  by destruct (Z.eqb_spec (status_code response) 200).
Qed.

(** ** The worker's turn, laid flat *)

(** The whole turn: the print of line 122 comes before every write. *)
Lemma process_event_flat ev s :
  process_event cfg ev s
  = match (turn_print cfg ev s).1 with
    | Raise e =>
        (Raise e,
         MkState (turn_print cfg ev s).2 (last_processed_timestamp s)
           (last_poll_time s) (message_queue s) (turn_entries ev s))
    | Ok _ =>
        (match (create_post (ev_channel_id ev) (turn_reply cfg ev s).1
                  (turn_print cfg ev s).2).1 with
         | Ok _ => Ok tt
         | Raise e => Raise e
         end,
         MkState
           (create_post (ev_channel_id ev) (turn_reply cfg ev s).1
              (turn_print cfg ev s).2).2
           (match (create_post (ev_channel_id ev) (turn_reply cfg ev s).1
                     (turn_print cfg ev s).2).1 with
            | Ok _ => <[ev_channel_id ev := ev_message_time ev]>
                        (last_processed_timestamp s)
            | Raise _ => last_processed_timestamp s
            end)
           (last_poll_time s) (message_queue s)
           (if ENABLE_CONTEXT_TRACKING cfg
            then <[ev_sender_username ev
                   := ((turn_reply cfg ev s).2, turn_time s)]>
                   (turn_entries ev s)
            else turn_entries ev s))
    end.
Proof.
  unfold turn_print, turn_reply, turn_answer, turn_request, turn_context,
    turn_entries, turn_time, process_event.
  unfold bind at 1. unfold call_total, call.
  destruct (datetime_now (world s)) as [t w1] eqn:Hnow. cbn [fst snd].
  unfold bind at 1.
  assert (Hres : exists c,
    resolve_context cfg (ev_sender_username ev) t (with_world s w1)
    = (Ok c, with_user_context (with_world s w1)
               match user_context s !! ev_sender_username ev with
               | Some _ => user_context s
               | None => <[ev_sender_username ev := (CtxStr "", t)]>
                           (user_context s)
               end)
    /\ c = match user_context s !! ev_sender_username ev with
           | Some (c0, last) =>
               if ENABLE_CONTEXT_TRACKING cfg
                  && (CONTEXT_EXPIRATION_DURATION <? t - last)
               then CtxStr "" else c0
           | None => CtxStr ""
           end).
  { destruct (user_context s !! ev_sender_username ev) as [[c0 last]|]
      eqn:Hlook.
    - eexists. split; [|done].
      rewrite (resolve_context_present (ev_sender_username ev) t
                 (with_world s w1) c0 last) by done.
      by destruct s.
    - eexists. split; [|done].
      by rewrite (resolve_context_absent (ev_sender_username ev) t
                    (with_world s w1)) by done. }
  destruct Hres as (c & -> & <-).
  unfold bind at 1.
  assert (Hinf :
    (if ENABLE_CONTEXT_TRACKING cfg && truthy c
     then get_ollama_response cfg (ev_message_text ev) (Some c)
     else get_ollama_response cfg (ev_message_text ev) None)
    = get_ollama_response cfg (ev_message_text ev)
        (if ENABLE_CONTEXT_TRACKING cfg && truthy c then Some c else None))
    by (by destruct (_ && _)).
  rewrite Hinf, get_ollama_response_flat. cbn [world with_user_context].
  assert (Hreq :
    match (if ENABLE_CONTEXT_TRACKING cfg && truthy c then Some c else None)
    with
    | Some c1 =>
        if ENABLE_CONTEXT_TRACKING cfg && truthy c1 then Some c1 else None
    | None => None
    end
    = (if ENABLE_CONTEXT_TRACKING cfg && truthy c then Some c else None)).
  { destruct (ENABLE_CONTEXT_TRACKING cfg && truthy c) eqn:Hsend;
      [by rewrite Hsend | done]. }
  rewrite Hreq.
  destruct (ollama_reply _) as [txt ctx]. cbn [fst snd].
  unfold bind, call, when, set_user_context, post_message_to_mattermost,
    set_last_processed_timestamp, ret. cbn [world with_world].
  destruct (print (line_ollama_response txt) _) as [[[]|e] w]; cbn; [|done].
  destruct (ENABLE_CONTEXT_TRACKING cfg); cbn; unfold call; cbn;
    by destruct (create_post (ev_channel_id ev) txt w) as [[[]|e] w'].
Qed.

(** ** Claims about the worker *)

(** C1 (as amended).  When the worker's turn for an event ends normally, that
    is when the reply has been posted, [last_processed_timestamp] of the
    event's channel is overwritten with the event's timestamp; no maximum
    is taken.  The cursor therefore does not go down whenever the event is
    not older than the previous cursor value. *)
Theorem C1_cursor_overwritten ev s :
  (process_event cfg ev s).1 = Ok tt ->
  last_processed_timestamp (process_event cfg ev s).2
  = <[ev_channel_id ev := ev_message_time ev]> (last_processed_timestamp s)
  /\ (forall prev,
        last_processed_timestamp s !! ev_channel_id ev = Some prev ->
        prev <= ev_message_time ev ->
        exists cur,
          last_processed_timestamp (process_event cfg ev s).2
            !! ev_channel_id ev = Some cur
          /\ prev <= cur).
Proof.
  rewrite process_event_flat.
  destruct (turn_print cfg ev s).1; [|done]. cbn.
  destruct (create_post _ _ _).1; [|done]. intros _.
  split; [done|]. intros prev _ Hle. exists (ev_message_time ev).
  by rewrite lookup_insert_eq.
Qed.

(** C7.  With context tracking on, resolving the context of a user who has a
    stored entry gives the empty context when more than four minutes have
    passed since the entry's last interaction, and the stored context as it
    is otherwise. *)
Theorem C7_resolve_expiration user_id t s c last :
  ENABLE_CONTEXT_TRACKING cfg = true ->
  user_context s !! user_id = Some (c, last) ->
  (t - last > CONTEXT_EXPIRATION_DURATION ->
   (resolve_context cfg user_id t s).1 = Ok (CtxStr ""))
  /\ (t - last <= CONTEXT_EXPIRATION_DURATION ->
      (resolve_context cfg user_id t s).1 = Ok c).
Proof.
  intros Hon Hlook. rewrite (resolve_context_present _ _ _ _ _ Hlook), Hon.
  cbn. split; intros Hcmp.
  - by rewrite (proj2 (Z.ltb_lt _ _)) by lia.
  - by rewrite (proj2 (Z.ltb_ge _ _)) by lia.
Qed.

(** C8.  Resolving does not write to an existing entry, expired or not: the
    state stays as it is.  Hence after a first resolve for a user, any
    further resolves for that user, at any times, leave the state of the
    first. *)
Theorem C8_resolve_idempotent user_id t0 (ts : list Z) s :
  (forall e t, user_context s !! user_id = Some e ->
     (resolve_context cfg user_id t s).2 = s)
  /\ foldl (fun acc t => (resolve_context cfg user_id t acc).2)
       (resolve_context cfg user_id t0 s).2 ts
     = (resolve_context cfg user_id t0 s).2.
Proof.
  assert (Hkeep : forall s' e t, user_context s' !! user_id = Some e ->
            (resolve_context cfg user_id t s').2 = s').
  { intros s' [c last] t Hlook.
    by rewrite (resolve_context_present _ _ _ _ _ Hlook). }
  split; [intros e t; apply Hkeep|].
  destruct (resolve_context_run user_id t0 s) as (c & uc & Hrun & [e He] & _).
  rewrite Hrun. change (_, ?x).2 with x.
  assert (He' : user_context (with_user_context s uc) !! user_id = Some e)
    by done.
  induction ts as [|t ts IH]; [done|].
  change (foldl ?f ?a (t :: ts)) with (foldl f (f a t) ts).
  cbv beta. by rewrite (Hkeep _ e t He').
Qed.

(** C10.  With context tracking on, when the request of the turn fails
    (it throws, or the status is not 200) and the reply line of line 122,
    which then is plain ASCII, has been printed, the worker stores the empty
    context for the sender, stamped with the time of this turn, whatever the
    sender had before, and then posts the error text to the channel; the
    store stands whether or not the post succeeds. *)
Theorem C10_failed_inference_erases_context ev s :
  ENABLE_CONTEXT_TRACKING cfg = true ->
  inference_failed (turn_answer cfg ev s).1 ->
  (print (line_ollama_response (failure_text (turn_answer cfg ev s).1))
     (turn_answer cfg ev s).2).1 = Ok tt ->
  user_context (process_event cfg ev s).2 !! ev_sender_username ev
  = Some (CtxStr "", (datetime_now (world s)).1)
  /\ process_event cfg ev s
     = (match (create_post (ev_channel_id ev)
                 (failure_text (turn_answer cfg ev s).1)
                 (print
                    (line_ollama_response
                       (failure_text (turn_answer cfg ev s).1))
                    (turn_answer cfg ev s).2).2).1 with
        | Ok _ => Ok tt
        | Raise e => Raise e
        end,
        MkState
          (create_post (ev_channel_id ev)
             (failure_text (turn_answer cfg ev s).1)
             (print
                (line_ollama_response (failure_text (turn_answer cfg ev s).1))
                (turn_answer cfg ev s).2).2).2
          (match (create_post (ev_channel_id ev)
                    (failure_text (turn_answer cfg ev s).1)
                    (print
                       (line_ollama_response
                          (failure_text (turn_answer cfg ev s).1))
                       (turn_answer cfg ev s).2).2).1 with
           | Ok _ => <[ev_channel_id ev := ev_message_time ev]>
                       (last_processed_timestamp s)
           | Raise _ => last_processed_timestamp s
           end)
          (last_poll_time s) (message_queue s)
          (<[ev_sender_username ev := (CtxStr "", (datetime_now (world s)).1)]>
             (turn_entries ev s))).
Proof.
  intros Hon Hfail Hprint.
  assert (Hflat : process_event cfg ev s = _) by apply process_event_flat.
  unfold turn_print, turn_reply in Hflat.
  rewrite (ollama_reply_failed _ Hfail) in Hflat. cbn [fst snd] in Hflat.
  rewrite Hprint, Hon in Hflat.
  split; [|exact Hflat].
  rewrite Hflat. cbn. by rewrite lookup_insert_eq.
Qed.

End WorkerProofs.

(** ** Concrete runs of the worker *)

(** C1, witness of the amended statement: the worker answers the event of
    200 ms while the cursor of the channel stands at 150; afterwards the
    cursor is 200. *)
Lemma C1_cursor_overwritten_witness :
  last_processed_timestamp
    (process_event cfg0 ev_200 (with_message_queue state_after_150 [])).2
  = <["town-square" := 200]> (last_processed_timestamp state_after_150)
  /\ exists cur,
       last_processed_timestamp
         (process_event cfg0 ev_200 (with_message_queue state_after_150 [])).2
         !! "town-square" = Some cur
       /\ 150 <= cur.
Proof.
  destruct (C1_cursor_overwritten cfg0 ev_200
              (with_message_queue state_after_150 []))
    as [Hset Hup]; [vm_compute; reflexivity|].
  split; [exact Hset|].
  apply (Hup 150); [vm_compute; reflexivity | vm_compute; discriminate].
Defined.

(** C1, the claim as stated fails.  After the two polls of the edited-post
    story the queue holds the event of 200 ms before the event of 150 ms.
    The worker posts both replies; the cursor of the channel is 200 after
    its first turn and 150 after its second, not [max 200 150]. *)
Lemma C1_counterexample :
  message_queue state_two_waiting = [ev_200; ev_150]
  /\ last_processed_timestamp state_after_200 !! "town-square" = Some 200
  /\ message_queue state_after_200 = [ev_150]
  /\ (process_event cfg0 ev_150 (with_message_queue state_after_200 [])).1
     = Ok tt
  /\ last_processed_timestamp state_after_150 !! "town-square" = Some 150
  /\ Some 150 <> Some (Z.max 200 150)
  /\ 150 < 200.
Proof. vm_compute. repeat split; congruence. Qed.

(** C7, witness: Alice's entry is from second 10; at second 250 exactly four
    minutes have passed and the context is still handed out; one microsecond
    later it is not. *)
Lemma C7_resolve_expiration_witness :
  (resolve_context cfg0 "alice" 250000001 (state_alice http_ok 0)).1
    = Ok (CtxStr "")
  /\ (resolve_context cfg0 "alice" 250000000 (state_alice http_ok 0)).1
    = Ok (CtxTokens [7; 8]).
Proof.
  split.
  - apply (C7_resolve_expiration cfg0 "alice" 250000001 (state_alice http_ok 0)
             (CtxTokens [7; 8]) 10000000); [reflexivity | reflexivity |].
    unfold CONTEXT_EXPIRATION_DURATION. lia.
  - apply (C7_resolve_expiration cfg0 "alice" 250000000 (state_alice http_ok 0)
             (CtxTokens [7; 8]) 10000000); [reflexivity | reflexivity |].
    unfold CONTEXT_EXPIRATION_DURATION. lia.
Defined.

(** C8, witness: resolving Alice's expired entry leaves the state as it was. *)
Lemma C8_resolve_idempotent_witness :
  (resolve_context cfg0 "alice" 999000000 (state_alice http_ok 0)).2
  = state_alice http_ok 0.
Proof.
  apply (proj1 (C8_resolve_idempotent cfg0 "alice" 0 [] (state_alice http_ok 0))
           (CtxTokens [7; 8], 10000000) 999000000).
  reflexivity.
Defined.

(** C10, witness: Alice's context is one second old when Ollama answers 500;
    the line ["Ollama response: Error: Ollama returned status code 500"] is
    printed, and after the turn her entry holds the empty context. *)
Lemma C10_failed_inference_erases_context_witness :
  user_context
    (process_event cfg0 (MkEvent "town-square" "@bot hi" "alice" 200)
       (state_alice http_500 11000000)).2 !! "alice"
  = Some (CtxStr "", 11000000).
Proof.
  assert (Hfail : inference_failed
            (turn_answer cfg0 (MkEvent "town-square" "@bot hi" "alice" 200)
               (state_alice http_500 11000000)).1).
  { vm_compute. discriminate. }
  assert (Hprint :
    (print
       (line_ollama_response
          (failure_text
             (turn_answer cfg0 (MkEvent "town-square" "@bot hi" "alice" 200)
                (state_alice http_500 11000000)).1))
       (turn_answer cfg0 (MkEvent "town-square" "@bot hi" "alice" 200)
          (state_alice http_500 11000000)).2).1 = Ok tt).
  { vm_compute. reflexivity. }
  exact (proj1 (C10_failed_inference_erases_context cfg0
                  (MkEvent "town-square" "@bot hi" "alice" 200)
                  (state_alice http_500 11000000) eq_refl Hfail Hprint)).
Defined.

(** ** [float(n)] *)

Lemma round_53_small z : z < 2 ^ 53 -> round_53 z = z.
Proof.
  intros Hz. unfold round_53.
  destruct (Z.ltb_spec z (2 ^ 53)); [done | lia].
Qed.

(** From [2^53] on, the rounded value stays within the binade of [z]. *)
Lemma round_53_binade z :
  2 ^ 53 <= z ->
  2 ^ Z.log2 z <= round_53 z <= 2 ^ (Z.log2 z + 1).
Proof.
  intros Hz. unfold round_53.
  destruct (Z.ltb_spec z (2 ^ 53)); [lia|].
  assert (Hlog : 53 <= Z.log2 z).
  { change 53 with (Z.log2 (2 ^ 53)). by apply Z.log2_le_mono. }
  destruct (Z.log2_spec z) as [Hlo Hhi]; [lia|].
  set (e := Z.log2 z - 52) in *.
  assert (He : 0 < 2 ^ e) by (apply Z.pow_pos_nonneg; lia).
  assert (HL : 2 ^ Z.log2 z = 2 ^ 52 * 2 ^ e).
  { rewrite <- Z.pow_add_r by lia. f_equal. lia. }
  assert (HL1 : 2 ^ (Z.log2 z + 1) = 2 ^ 53 * 2 ^ e).
  { rewrite <- Z.pow_add_r by lia. f_equal. lia. }
  replace (Z.succ (Z.log2 z)) with (Z.log2 z + 1) in Hhi by lia.
  rewrite HL, HL1 in *.
  assert (Hq1 : 2 ^ 52 <= z / 2 ^ e) by (apply Z.div_le_lower_bound; lia).
  assert (Hq2 : z / 2 ^ e < 2 ^ 53) by (apply Z.div_lt_upper_bound; lia).
  repeat case_match; nia.
Qed.

Lemma round_53_nonneg z : 0 <= z -> 0 <= round_53 z.
Proof.
  intros Hz. destruct (Z.lt_ge_cases z (2 ^ 53)).
  - by rewrite round_53_small.
  - pose proof (round_53_binade z ltac:(done)) as [Hlo _].
    etrans; [|exact Hlo]. apply Z.pow_nonneg. lia.
Qed.

Lemma round_53_mono a b : 0 <= a <= b -> round_53 a <= round_53 b.
Proof.
  intros [Ha Hab].
  destruct (Z.lt_ge_cases b (2 ^ 53)) as [Hb|Hb].
  { rewrite !round_53_small; lia. }
  pose proof (round_53_binade b Hb) as [Hblo Hbhi].
  assert (Hlogb : 53 <= Z.log2 b).
  { change 53 with (Z.log2 (2 ^ 53)). by apply Z.log2_le_mono. }
  destruct (Z.lt_ge_cases a (2 ^ 53)) as [Ha53|Ha53].
  { rewrite (round_53_small a) by done.
    assert (2 ^ 53 <= 2 ^ Z.log2 b) by (apply Z.pow_le_mono_r; lia). lia. }
  pose proof (round_53_binade a Ha53) as [Halo Hahi].
  assert (Hlogab : Z.log2 a <= Z.log2 b) by (by apply Z.log2_le_mono).
  destruct (Z.eq_dec (Z.log2 a) (Z.log2 b)) as [Heq|Hne].
  2:{ assert (2 ^ (Z.log2 a + 1) <= 2 ^ Z.log2 b)
        by (apply Z.pow_le_mono_r; lia). lia. }
  unfold round_53.
  destruct (Z.ltb_spec a (2 ^ 53)); [lia|].
  destruct (Z.ltb_spec b (2 ^ 53)); [lia|].
  rewrite Heq. set (e := Z.log2 b - 52).
  assert (He : 0 < 2 ^ e) by (apply Z.pow_pos_nonneg; lia).
  pose proof (Z.div_mod a (2 ^ e) ltac:(lia)) as Hda.
  pose proof (Z.div_mod b (2 ^ e) ltac:(lia)) as Hdb.
  pose proof (Z.mod_pos_bound a (2 ^ e) He) as Hra.
  pose proof (Z.mod_pos_bound b (2 ^ e) He) as Hrb.
  assert (Hq : a / 2 ^ e <= b / 2 ^ e) by (apply Z.div_le_mono; lia).
  destruct (Z.eq_dec (a / 2 ^ e) (b / 2 ^ e)) as [Hqe|Hqne].
  - rewrite Hqe in *.
    assert (a mod 2 ^ e <= b mod 2 ^ e) by lia.
    repeat case_match; nia.
  - repeat case_match; nia.
Qed.

Lemma py_float_exact n : Z.abs n <= 2 ^ 53 -> py_float n = Ok n.
Proof.
  intros Hn. unfold py_float.
  assert (Hr : round_53 (Z.abs n) = Z.abs n).
  { destruct (Z.eq_dec (Z.abs n) (2 ^ 53)) as [->|]; [by vm_compute|].
    apply round_53_small. lia. }
  rewrite Hr.
  replace (Z.sgn n * Z.abs n) with n by (by destruct n).
  destruct (Z.leb_spec (2 ^ 1024) (Z.abs n)); [|done].
  assert (2 ^ 53 < 2 ^ 1024) by (by vm_compute). lia.
Qed.

Lemma py_float_mono a b fa fb :
  py_float a = Ok fa -> py_float b = Ok fb -> a <= b -> fa <= fb.
Proof.
  unfold py_float. intros Ha Hb Hab.
  repeat case_match; simplify_eq.
  pose proof (round_53_nonneg (Z.abs a) (Z.abs_nonneg a)).
  pose proof (round_53_nonneg (Z.abs b) (Z.abs_nonneg b)).
  destruct (Z.lt_trichotomy a 0) as [Ha0|[->|Ha0]];
    destruct (Z.lt_trichotomy b 0) as [Hb0|[->|Hb0]]; try lia.
  - rewrite (Z.sgn_neg a), (Z.sgn_neg b) by done.
    pose proof (round_53_mono (Z.abs b) (Z.abs a) ltac:(lia)). lia.
  - rewrite (Z.sgn_pos a), (Z.sgn_pos b) by done.
    pose proof (round_53_mono (Z.abs a) (Z.abs b) ltac:(lia)). lia.
Qed.

(** Below a bound that doubles represent exactly, the comparison with the
    bound survives the conversion. *)
Lemma py_float_lt_bound n f bound :
  Z.abs bound < 2 ^ 53 -> n < bound -> py_float n = Ok f -> f < bound.
Proof.
  intros Hb Hn Hf.
  destruct (Z.le_gt_cases (- 2 ^ 53) n) as [Hlo|Hlo].
  - rewrite py_float_exact in Hf by lia. by simplify_eq.
  - assert (Hm : py_float (- 2 ^ 53) = Ok (- 2 ^ 53)) by (by vm_compute).
    pose proof (py_float_mono _ _ _ _ Hf Hm ltac:(lia)).
    lia.
Qed.

Section PollerProofs.
Context {World : Type} `{!Externals World} `{!Console World}.
Variable cfg : Config.

Implicit Types (s : pystate World) (ev : QueueEvent) (channel : Channel).

(** The monad's equations used to step through the code. *)
Lemma bind_ret {A B} (a : A) (k : A -> M World B) s :
  bind (ret a) k s = k a s.
Proof. done. Qed.

Lemma bind_get_state {B} (k : pystate World -> M World B) s :
  bind get_state k s = k s s.
Proof. done. Qed.

Lemma bind_set_last_poll_time {B} key v (k : unit -> M World B) s :
  bind (set_last_poll_time key v) k s
  = k tt (with_last_poll_time s (<[key := v]> (last_poll_time s))).
Proof. done. Qed.

Lemma state_eta s :
  s = with_message_queue (with_world s (world s)) (message_queue s ++ []).
Proof. destruct s. unfold with_message_queue, with_world. cbn.
  by rewrite app_nil_r. Qed.

(** ** One post: lines 187-222 *)

(** The post is passed over: the state is as before ([untouched]), or only
    the world has moved ([world_only]). *)
Local Ltac untouched s :=
  by eexists _, (world s), [];
     split; [apply (f_equal (pair _)), state_eta | left].
Local Ltac world_only w :=
  eexists _, w, []; split; [by rewrite app_nil_r | by left].

(** [handle_post] touches the world and the queue only, and what it appends
    is nothing or one admitted event, whose sender was looked up and whose
    line 217 was printed. *)
Lemma handle_post_run channel posts post_id s :
  exists r w new,
    handle_post cfg channel posts post_id s
    = (r, with_message_queue (with_world s w) (message_queue s ++ new))
    /\ (new = []
        \/ exists post ev,
             new = [ev]
             /\ (exists user w0,
                   get_user (post_user_id post) (world s) = (Ok user, w0)
                   /\ ev_sender_username ev = user_username user
                   /\ (print (line_received channel (user_username user)
                                (post_message post)) w0).1 = Ok tt)
             /\ pl_posts posts !! post_id = Some post
             /\ admitted cfg channel (last_processed_timestamp s) post ev).
Proof.
  unfold handle_post, bind, subscript.
  destruct (pl_posts posts !! post_id) as [post|] eqn:Hpost; cbn;
    [|untouched s].
  destruct (String.eqb_spec (post_user_id post) (bot_user_id cfg))
    as [Hself|Hself]; cbn; [untouched s|].
  destruct (py_float (post_create_at post)) as [message_time|e] eqn:Hfloat;
    cbn; [|untouched s].
  destruct (Z.ltb_spec message_time (boot_time cfg)) as [Hboot|Hboot]; cbn.
  { unfold call. destruct (print _ (world s)) as [r w]. world_only w. }
  destruct (match last_processed_timestamp s !! ch_id channel with
            | Some last => last >=? message_time
            | None => false
            end) eqn:Hdedup; cbn.
  { unfold call. destruct (print _ (world s)) as [r w]. world_only w. }
  unfold call.
  destruct (get_user (post_user_id post) (world s))
    as [[sender_user|e] w] eqn:Huser; cbn [world with_world]; [|world_only w].
  destruct (negb (ch_type channel =? "D")%string
            && negb (bot_is_mentioned (post_message post) (bot_username cfg)))
    eqn:Hmention; cbn [world with_world].
  { destruct (print _ w) as [r w']. world_only w'. }
  destruct (print (line_received channel (user_username sender_user)
                     (post_message post)) w) as [[[]|e] w1] eqn:Hreceived;
    cbn; [|world_only w1].
  destruct (print (line_queued channel (user_username sender_user)) w1)
    as [r w2]. cbn.
  eexists r, w2, [_]. split; [done|]. right. eexists post, _.
  split; [done|]. split.
  { exists sender_user, w. split; [done|]. split; [done|]. by rewrite Hreceived. }
  split; [done|].
  unfold admitted; cbn. repeat split; try done.
  - intros last Hlast. rewrite Hlast in Hdedup.
    rewrite Z.geb_leb in Hdedup. by apply Z.leb_gt in Hdedup.
  - apply andb_false_iff in Hmention as [Hd|Hm].
    + left. apply negb_false_iff in Hd. by apply String.eqb_eq.
    + right. by apply negb_false_iff in Hm.
Qed.

(** ** The posts of one answer: line 186 *)

Lemma poll_posts_run channel posts ids s :
  exists r w new,
    for_each ids (handle_post cfg channel posts) s
    = (r, with_message_queue (with_world s w) (message_queue s ++ new))
    /\ Forall (fun ev => exists post_id post,
                 post_id ∈ ids /\ pl_posts posts !! post_id = Some post
                 /\ admitted cfg channel (last_processed_timestamp s) post ev)
         new
    /\ (StronglySorted (not_newer (pl_posts posts)) ids -> oldest_first new).
Proof.
  revert s. induction ids as [|post_id ids IH]; intros s.
  { exists (Ok tt), (world s), []. split; [|split].
    - cbn. unfold ret. f_equal. apply state_eta.
    - constructor.
    - intros _. constructor. }
  destruct (handle_post_run channel posts post_id s)
    as (r1 & w1 & new1 & Hrun1 & Hnew1).
  cbn [for_each]. unfold bind at 1. rewrite Hrun1.
  destruct r1 as [[]|e].
  2:{ exists (Raise e), w1, new1. split; [done|].
      destruct Hnew1 as [->|(post & ev & -> & _ & Hpost & Hadm)].
      - split; constructor.
      - split; [|intros _; by repeat constructor].
        repeat constructor. exists post_id, post.
        split; [apply list_elem_of_here|done]. }
  set (s1 := with_message_queue (with_world s w1) (message_queue s ++ new1)).
  destruct (IH s1) as (r2 & w2 & new2 & Hrun2 & Hnew2 & Hsorted2).
  exists r2, w2, (new1 ++ new2). split; [|split].
  - rewrite Hrun2. unfold s1, with_message_queue, with_world. cbn.
    by rewrite app_assoc.
  - apply Forall_app. split.
    + destruct Hnew1 as [->|(post & ev & -> & _ & Hpost & Hadm)];
        constructor; [|constructor].
      exists post_id, post. split; [apply list_elem_of_here|done].
    + eapply Forall_impl; [exact Hnew2|].
      intros ev (post_id' & post & Hin & Hpost & Hadm).
      exists post_id', post. split; [by apply list_elem_of_further|done].
  - intros Hsorted. apply StronglySorted_cons in Hsorted as [Hhead Htail].
    specialize (Hsorted2 Htail).
    destruct Hnew1 as [->|(post & ev & -> & _ & Hpost & Hadm)]; [done|].
    cbn. constructor; [done|].
    apply Forall_forall. intros ev' Hev'.
    rewrite Forall_forall in Hnew2.
    destruct (Hnew2 ev' Hev') as (post_id' & post' & Hin & Hpost' & Hadm').
    rewrite Forall_forall in Hhead.
    specialize (Hhead post_id' Hin post post' Hpost Hpost').
    destruct Hadm as (_ & Hf & _), Hadm' as (_ & Hf' & _).
    exact (py_float_mono _ _ _ _ Hf Hf' Hhead).
Qed.

Lemma newest_first_rev posts :
  newest_first posts ->
  StronglySorted (not_newer (pl_posts posts)) (rev (pl_order posts)).
Proof.
  unfold newest_first. induction 1 as [|post_id ids Hsorted IH Hhead]; cbn;
    [constructor|].
  apply StronglySorted_app. split; [|split; [done|repeat constructor]].
  intros a b Ha Hb. apply list_elem_of_singleton in Hb as ->.
  rewrite Forall_forall in Hhead. apply Hhead.
  by apply list_elem_of_In, in_rev in Ha; apply list_elem_of_In.
Qed.

(** ** One channel: lines 177-225 *)

(** The start of the loop body, up to and including the fetch. *)
Lemma poll_channel_unfold channel s :
  poll_channel cfg channel s
  = (let! posts := call (get_posts_for_channel (ch_id channel)
                           (since_time_of cfg channel s)) in
     for_each (rev (pl_order posts)) (handle_post cfg channel posts) ;;
     let! now := call_total now_millis in
     set_last_poll_time (ch_id channel) now)
      (with_last_poll_time s (poll_time_initialised cfg channel s)).
Proof.
  unfold poll_channel, since_time_of, poll_time_initialised.
  rewrite bind_get_state. unfold contains_key.
  destruct (last_poll_time s !! ch_id channel) as [t|] eqn:Hlook; cbn [negb when].
  - rewrite bind_ret, bind_get_state. unfold subscript. rewrite Hlook.
    rewrite bind_ret. by destruct s.
  - rewrite bind_set_last_poll_time, bind_get_state. unfold subscript.
    cbn [last_poll_time with_last_poll_time]. rewrite lookup_insert_eq.
    by rewrite bind_ret.
Qed.

Lemma poll_channel_run channel s :
  exists r w new lp,
    poll_channel cfg channel s
    = (r, MkState w (last_processed_timestamp s) lp
            (message_queue s ++ new) (user_context s))
    /\ (forall e, r = Raise e -> lp = poll_time_initialised cfg channel s)
    /\ (r = Ok tt ->
        exists w2, lp = <[ch_id channel := (now_millis w2).1]>
                         (poll_time_initialised cfg channel s)
                   /\ w = (now_millis w2).2)
    /\ Forall (fun ev => exists posts w1 post_id post,
          get_posts_for_channel (ch_id channel) (since_time_of cfg channel s)
            (world s) = (Ok posts, w1)
          /\ post_id ∈ pl_order posts
          /\ pl_posts posts !! post_id = Some post
          /\ admitted cfg channel (last_processed_timestamp s) post ev) new
    /\ (forall posts w1,
          get_posts_for_channel (ch_id channel) (since_time_of cfg channel s)
            (world s) = (Ok posts, w1) ->
          newest_first posts -> oldest_first new).
Proof.
  rewrite poll_channel_unfold.
  set (lp0 := poll_time_initialised cfg channel s).
  unfold bind at 1. unfold call at 1. cbn [world with_last_poll_time].
  destruct (get_posts_for_channel _ _ (world s)) as [[posts|e] w1] eqn:Hfetch.
  2:{ exists (Raise e), w1, [], lp0. rewrite app_nil_r.
      split; [done|]. split; [done|]. split; [done|].
      split; [constructor|]. intros ? ? [=]. }
  set (s1 := with_world (with_last_poll_time s lp0) w1).
  destruct (poll_posts_run channel posts (rev (pl_order posts)) s1)
    as (r & w2 & new & Hrun & Hnew & Hsorted).
  assert (Hprov : Forall (fun ev => exists posts' w1' post_id post,
            (Ok posts, w1) = (Ok posts', w1')
            /\ post_id ∈ pl_order posts'
            /\ pl_posts posts' !! post_id = Some post
            /\ admitted cfg channel (last_processed_timestamp s) post ev) new).
  { eapply Forall_impl; [exact Hnew|].
    intros ev (post_id & post & Hin & Hpost & Hadm).
    exists posts, w1, post_id, post. split; [done|]. split; [|done].
    by apply list_elem_of_In, in_rev, list_elem_of_In. }
  assert (Hord : forall posts' w1', (Ok posts, w1) = (Ok posts', w1') ->
            newest_first posts' -> oldest_first new).
  { intros ? ? [= <- <-] Hnf. by apply Hsorted, newest_first_rev. }
  unfold bind at 1. fold s1. rewrite Hrun.
  destruct r as [[]|e].
  - unfold bind, call_total, call, set_last_poll_time. cbn.
    destruct (now_millis w2) as [now w3] eqn:Hnow. cbn.
    exists (Ok tt), w3, new, (<[ch_id channel := now]> lp0).
    split; [done|]. split; [done|].
    split; [intros _; exists w2; by rewrite Hnow|]. done.
  - exists (Raise e), w2, new, lp0.
    split; [done|]. split; [done|]. split; [done|]. done.
Qed.

(** ** Loops and the cycle *)

(** A raise in the body ends the loop: nothing after it is run. *)
Lemma for_each_raise {A} (body : A -> M World unit) pre x rest e s s1 s2 :
  for_each pre body s = (Ok tt, s1) ->
  body x s1 = (Raise e, s2) ->
  for_each (pre ++ x :: rest) body s = (Raise e, s2).
Proof.
  revert s. induction pre as [|y pre IH]; intros s Hpre Hx; cbn in *.
  - unfold ret in Hpre. simplify_eq. unfold bind. by rewrite Hx.
  - unfold bind in *. destruct (body y s) as [[[]|e'] s'] eqn:Hy; [|done].
    by apply IH.
Qed.

Lemma enqueues_fresh_refl s : enqueues_fresh cfg s s.
Proof.
  split; [done|]. split; [done|]. exists []. by rewrite app_nil_r.
Qed.

Lemma enqueues_fresh_trans s1 s2 s3 :
  enqueues_fresh cfg s1 s2 -> enqueues_fresh cfg s2 s3 ->
  enqueues_fresh cfg s1 s3.
Proof.
  intros (Hc1 & Hu1 & new1 & Hq1 & Hf1) (Hc2 & Hu2 & new2 & Hq2 & Hf2).
  split; [congruence|]. split; [congruence|].
  exists (new1 ++ new2). split.
  - by rewrite Hq2, Hq1, app_assoc.
  - apply Forall_app. split; [done|]. by rewrite <- Hc1.
Qed.

Lemma poll_channel_enqueues channel s :
  enqueues_fresh cfg s (poll_channel cfg channel s).2.
Proof.
  destruct (poll_channel_run channel s)
    as (r & w & new & lp & Hrun & _ & _ & Hnew & _).
  rewrite Hrun. split; [done|]. split; [done|]. exists new. split; [done|].
  eapply Forall_impl; [exact Hnew|].
  intros ev (posts & w1 & post_id & post & _ & _ & _ & Hadm).
  destruct Hadm as (_ & _ & Hboot & Hcur & _ & Hid & _).
  split; [done|]. by rewrite Hid.
Qed.

Lemma for_each_enqueues {A} (body : A -> M World unit) xs :
  (forall x s, enqueues_fresh cfg s (body x s).2) ->
  forall s, enqueues_fresh cfg s (for_each xs body s).2.
Proof.
  intros Hbody. induction xs as [|x xs IH]; intros s; cbn.
  - apply enqueues_fresh_refl.
  - unfold bind. specialize (Hbody x s).
    destruct (body x s) as [[[]|e] s1]; [|done].
    eapply enqueues_fresh_trans; [exact Hbody | apply IH].
Qed.

Lemma call_enqueues {A} (f : World -> outcome A * World) s :
  enqueues_fresh cfg s (call f s).2.
Proof.
  unfold call. destruct (f (world s)) as [r w]. cbn.
  split; [done|]. split; [done|]. exists []. by rewrite app_nil_r.
Qed.

Lemma poll_cycle_enqueues s : enqueues_fresh cfg s (poll_cycle cfg s).2.
Proof.
  unfold poll_cycle, try_except, bind.
  pose proof (call_enqueues get_channels_for_user s) as Hcall.
  destruct (call get_channels_for_user s) as [[channels|e] s1]; [|done].
  pose proof (for_each_enqueues (poll_channel cfg) channels
                (poll_channel_enqueues) s1) as Hloop.
  destruct (for_each channels (poll_channel cfg) s1) as [[[]|e] s2];
    by eapply enqueues_fresh_trans.
Qed.

(** The cycle's [try] catches everything. *)
Lemma poll_cycle_returns s : (poll_cycle cfg s).1 = Ok tt.
Proof.
  unfold poll_cycle, try_except.
  by destruct (bind _ _ s) as [[[]|e] s'].
Qed.

Lemma poll_cycles_enqueues n s : enqueues_fresh cfg s (poll_cycles cfg n s).2.
Proof.
  revert s. induction n as [|n IH]; intros s; cbn.
  - apply enqueues_fresh_refl.
  - unfold bind. pose proof (poll_cycle_enqueues s) as Hc.
    destruct (poll_cycle cfg s) as [[[]|e] s1]; [|done].
    eapply enqueues_fresh_trans; [exact Hc | apply IH].
Qed.

(** ** Claims about the poller *)

(** What [handle_post] does with a post that gets through every check: the
    lookup, the print of line 217, the put, the print of line 222. *)
Lemma handle_post_enqueue channel posts post_id post t user w s :
  pl_posts posts !! post_id = Some post ->
  post_user_id post <> bot_user_id cfg ->
  py_float (post_create_at post) = Ok t ->
  boot_time cfg <= t ->
  (forall last, last_processed_timestamp s !! ch_id channel = Some last ->
     last < t) ->
  get_user (post_user_id post) (world s) = (Ok user, w) ->
  ch_type channel = "D"
  \/ bot_is_mentioned (post_message post) (bot_username cfg) = true ->
  (print (line_received channel (user_username user) (post_message post))
     w).1 = Ok tt ->
  handle_post cfg channel posts post_id s
  = ((print (line_queued channel (user_username user))
        (print (line_received channel (user_username user)
                  (post_message post)) w).2).1,
     with_message_queue
       (with_world s
          (print (line_queued channel (user_username user))
             (print (line_received channel (user_username user)
                       (post_message post)) w).2).2)
       (message_queue s
          ++ [MkEvent (ch_id channel) (post_message post) (user_username user)
                t])).
Proof.
  intros Hpost Hself Hfloat Hboot Hcur Huser Hmention Hreceived.
  unfold handle_post, subscript. rewrite Hpost, bind_ret.
  destruct (String.eqb_spec (post_user_id post) (bot_user_id cfg)); [done|].
  cbn [negb]. rewrite Hfloat. cbn [lift_outcome]. rewrite bind_ret.
  destruct (Z.ltb_spec t (boot_time cfg)); [lia|].
  rewrite bind_get_state.
  assert (match last_processed_timestamp s !! ch_id channel with
          | Some last => last >=? t
          | None => false
          end = false) as ->.
  { destruct (last_processed_timestamp s !! ch_id channel) as [last|] eqn:Hl;
      [|done].
    specialize (Hcur last eq_refl). rewrite Z.geb_leb. by apply Z.leb_gt. }
  unfold bind at 1. unfold call at 1. rewrite Huser.
  assert (negb (ch_type channel =? "D")%string
          && negb (bot_is_mentioned (post_message post) (bot_username cfg))
          = false) as ->.
  { destruct Hmention as [->| ->]; [done|]. apply andb_false_r. }
  unfold bind, call, queue_put. cbn [world with_world].
  destruct (print (line_received channel (user_username user)
                     (post_message post)) w) as [r1 w1].
  cbn in Hreceived. subst r1. cbn.
  by destruct (print (line_queued channel (user_username user)) w1).
Qed.


(** C3 (as amended).  When the step of a channel ends normally, also with
    every post filtered out, [last_poll_time] of the channel is the clock
    reading taken at the end of the step.  When the step raises, the entry
    is not advanced: it is what the fetch used as [since], the previous
    value or [boot_time]. *)
Theorem C3_poll_cursor channel s :
  ((poll_channel cfg channel s).1 = Ok tt ->
   exists w,
     last_poll_time (poll_channel cfg channel s).2 !! ch_id channel
       = Some (now_millis w).1
     /\ world (poll_channel cfg channel s).2 = (now_millis w).2)
  /\ (forall e, (poll_channel cfg channel s).1 = Raise e ->
        last_poll_time (poll_channel cfg channel s).2 !! ch_id channel
        = Some (since_time_of cfg channel s)).
Proof.
  destruct (poll_channel_run channel s)
    as (r & w & new & lp & Hrun & Hraise & Hok & _).
  rewrite Hrun. cbn. split.
  - intros Hr. destruct (Hok Hr) as (w2 & -> & ->). exists w2.
    by rewrite lookup_insert_eq.
  - intros e Hr. rewrite (Hraise e Hr).
    unfold poll_time_initialised, since_time_of.
    destruct (last_poll_time s !! ch_id channel) as [t|] eqn:Hl; cbn;
      [done | by rewrite lookup_insert_eq].
Qed.

(** ** The queue under interleaving *)

Lemma process_event_queue ev s :
  message_queue (process_event cfg ev s).2 = message_queue s.
Proof.
  rewrite process_event_flat.
  by destruct (turn_print cfg ev s).1.
Qed.

(** No action of either thread puts an event from before the boot on the
    queue. *)
Lemma bot_step_queue s s' :
  bot_step cfg s s' ->
  Forall (fun ev => boot_time cfg <= ev_message_time ev) (message_queue s) ->
  Forall (fun ev => boot_time cfg <= ev_message_time ev) (message_queue s').
Proof.
  intros Hstep Hqueue. destruct Hstep as [channel posts post_id s| |s s' Hturn].
  - destruct (handle_post_run channel posts post_id s)
      as (r & w & new & Hrun & Hnew).
    rewrite Hrun. cbn. apply Forall_app. split; [done|].
    destruct Hnew as [->|(post & ev & -> & _ & _ & Hadm)]; [constructor|].
    destruct Hadm as (_ & _ & Hboot & _). by repeat constructor.
  - done.
  - unfold message_processor_iteration in Hturn.
    destruct (message_queue s) as [|ev rest] eqn:Hq; [done|].
    simplify_eq. apply Forall_cons in Hqueue as [_ Hrest].
    unfold try_except.
    pose proof (process_event_queue ev (with_message_queue s rest)) as Hkeep.
    destruct (process_event cfg ev (with_message_queue s rest))
      as [[[]|e] s1]; cbn in *; by rewrite Hkeep.
Qed.

(** C4.  With a boot time that a double holds exactly (any clock reading of
    this age), a post created before [boot_time] leaves the queue as it is;
    every event that a channel's step appends was made from a fetched post
    created at or after [boot_time]; over any number of cycles every
    appended event carries a timestamp of at least [boot_time]; and however
    the poller and the worker interleave from an empty queue, the queue never
    holds an event with a smaller timestamp. *)
Theorem C4_nothing_before_boot :
  Z.abs (boot_time cfg) < 2 ^ 53 ->
  (forall channel posts post_id post s,
     pl_posts posts !! post_id = Some post ->
     post_create_at post < boot_time cfg ->
     message_queue (handle_post cfg channel posts post_id s).2
     = message_queue s)
  /\ (forall channel s, exists new : list QueueEvent,
        message_queue (poll_channel cfg channel s).2
        = message_queue s ++ new
        /\ Forall (fun ev => exists posts w1 post_id post,
             get_posts_for_channel (ch_id channel)
               (since_time_of cfg channel s) (world s) = (Ok posts, w1)
             /\ pl_posts posts !! post_id = Some post
             /\ py_float (post_create_at post) = Ok (ev_message_time ev)
             /\ boot_time cfg <= post_create_at post) new)
  /\ (forall n s, exists new : list QueueEvent,
        message_queue (poll_cycles cfg n s).2 = message_queue s ++ new
        /\ Forall (fun ev => boot_time cfg <= ev_message_time ev) new)
  /\ (forall s s',
        rtc (bot_step cfg) s s' ->
        message_queue s = [] ->
        Forall (fun ev => boot_time cfg <= ev_message_time ev)
          (message_queue s')).
Proof.
  intros Hrange. split; [|split; [|split]].
  - intros channel posts post_id post s Hpost Hold.
    destruct (handle_post_run channel posts post_id s)
      as (r & w & new & Hrun & Hnew).
    rewrite Hrun. cbn.
    destruct Hnew as [->|(post' & ev & _ & _ & Hpost' & Hadm)];
      [by rewrite app_nil_r|].
    rewrite Hpost in Hpost'. simplify_eq.
    destruct Hadm as (_ & Hfloat & Hboot & _).
    pose proof (py_float_lt_bound _ _ _ Hrange Hold Hfloat). lia.
  - intros channel s.
    destruct (poll_channel_run channel s)
      as (r & w & new & lp & Hrun & _ & _ & Hnew & _).
    exists new. rewrite Hrun. split; [done|].
    eapply Forall_impl; [exact Hnew|].
    intros ev (posts & w1 & post_id & post & Hfetch & _ & Hpost & Hadm).
    exists posts, w1, post_id, post.
    destruct Hadm as (_ & Hfloat & Hboot & _).
    repeat split; try done.
    destruct (Z.le_gt_cases (boot_time cfg) (post_create_at post)) as [|Hlt];
      [done|].
    pose proof (py_float_lt_bound _ _ _ Hrange Hlt Hfloat). lia.
  - intros n s.
    destruct (poll_cycles_enqueues n s) as (_ & _ & new & Hq & Hnew).
    exists new. split; [done|].
    eapply Forall_impl; [exact Hnew|]. by intros ev [Hboot _].
  - intros s s' Hpath Hempty.
    assert (Hstart : Forall (fun ev => boot_time cfg <= ev_message_time ev)
                       (message_queue s)) by (rewrite Hempty; constructor).
    clear Hempty. induction Hpath as [s|s s1 s' Hstep _ IH]; [done|].
    apply IH. by apply (bot_step_queue s).
Qed.

(** C5 (as amended).  When the channel has a cursor at the moment of the
    decision, a post whose timestamp (as the loop computes it) is at or
    below the cursor leaves the queue as it is; so does a post whose
    [create_at] is at or below a cursor that is a float value, as every
    value stored by the worker is.  Over any number of cycles read against
    the same cursors, every event appended for the channel is newer than its
    cursor.  Nothing is said about later decisions: the worker may have
    overwritten the cursor with a smaller timestamp by then. *)
Theorem C5_nothing_at_or_below_cursor channel last s :
  last_processed_timestamp s !! ch_id channel = Some last ->
  (forall posts post_id post,
     pl_posts posts !! post_id = Some post ->
     (forall t, py_float (post_create_at post) = Ok t -> t <= last) ->
     message_queue (handle_post cfg channel posts post_id s).2
     = message_queue s)
  /\ (forall posts post_id post,
        pl_posts posts !! post_id = Some post ->
        py_float last = Ok last ->
        post_create_at post <= last ->
        message_queue (handle_post cfg channel posts post_id s).2
        = message_queue s)
  /\ (forall n, exists new : list QueueEvent,
        message_queue (poll_cycles cfg n s).2 = message_queue s ++ new
        /\ Forall (fun ev => ev_channel_id ev = ch_id channel ->
                             last < ev_message_time ev) new).
Proof.
  intros Hlast.
  assert (Hpost : forall posts post_id post,
    pl_posts posts !! post_id = Some post ->
    (forall t, py_float (post_create_at post) = Ok t -> t <= last) ->
    message_queue (handle_post cfg channel posts post_id s).2
    = message_queue s).
  { intros posts post_id post Hp Hle.
    destruct (handle_post_run channel posts post_id s)
      as (r & w & new & Hrun & Hnew).
    rewrite Hrun. cbn.
    destruct Hnew as [->|(post' & ev & _ & _ & Hp' & Hadm)];
      [by rewrite app_nil_r|].
    rewrite Hp in Hp'. simplify_eq.
    destruct Hadm as (_ & Hfloat & _ & Hcur & _).
    specialize (Hle _ Hfloat). specialize (Hcur _ Hlast). lia. }
  split; [exact Hpost|]. split.
  - intros posts post_id post Hp Hrepr Hle. apply (Hpost _ _ _ Hp).
    intros t Ht. exact (py_float_mono _ _ _ _ Ht Hrepr Hle).
  - intros n.
    destruct (poll_cycles_enqueues n s) as (_ & _ & new & Hq & Hnew).
    exists new. split; [done|].
    eapply Forall_impl; [exact Hnew|].
    intros ev [_ Hcur] Hid. apply Hcur. by rewrite Hid.
Qed.

(** C6 (as amended).  Within one step of a channel whose answer lists the
    posts newest first, the events are appended oldest first: whatever is
    enqueued later in the step is not older. *)
Theorem C6_fifo_within_poll channel s posts w1 :
  get_posts_for_channel (ch_id channel) (since_time_of cfg channel s)
    (world s) = (Ok posts, w1) ->
  newest_first posts ->
  exists new : list QueueEvent,
    message_queue (poll_channel cfg channel s).2
    = message_queue s ++ new
    /\ oldest_first new
    /\ (forall l1 a l2 b l3,
          new = l1 ++ a :: l2 ++ b :: l3 ->
          ev_message_time a <= ev_message_time b).
Proof.
  intros Hfetch Hnf.
  destruct (poll_channel_run channel s)
    as (r & w & new & lp & Hrun & _ & _ & _ & Hsorted).
  exists new. rewrite Hrun. split; [done|].
  specialize (Hsorted posts w1 Hfetch Hnf). split; [done|].
  intros l1 a l2 b l3 ->.
  apply StronglySorted_app_1_r, StronglySorted_cons in Hsorted as [Ha _].
  rewrite Forall_forall in Ha. apply Ha.
  apply elem_of_app. right. apply list_elem_of_here.
Qed.

(** C9 (as amended).  In a channel that is not a direct-message channel, a
    post without the bot's mention token leaves the queue as it is.  In a
    direct-message channel, a post that is not the bot's own, that passes
    the boot and cursor checks, whose sender can be looked up and whose
    line 217 can be printed is enqueued, mention or not. *)
Theorem C9_mention_filter channel posts post_id post s :
  pl_posts posts !! post_id = Some post ->
  (ch_type channel <> "D" ->
   bot_is_mentioned (post_message post) (bot_username cfg) = false ->
   message_queue (handle_post cfg channel posts post_id s).2
   = message_queue s)
  /\ (ch_type channel = "D" ->
      post_user_id post <> bot_user_id cfg ->
      forall t user w,
        py_float (post_create_at post) = Ok t ->
        boot_time cfg <= t ->
        (forall last,
           last_processed_timestamp s !! ch_id channel = Some last ->
           last < t) ->
        get_user (post_user_id post) (world s) = (Ok user, w) ->
        (print (line_received channel (user_username user)
                  (post_message post)) w).1 = Ok tt ->
        message_queue (handle_post cfg channel posts post_id s).2
        = message_queue s
          ++ [MkEvent (ch_id channel) (post_message post)
                (user_username user) t]).
Proof.
  intros Hpost. split.
  - intros Htype Hmention.
    destruct (handle_post_run channel posts post_id s)
      as (r & w & new & Hrun & Hnew).
    rewrite Hrun. cbn.
    destruct Hnew as [->|(post' & ev & _ & _ & Hpost' & Hadm)];
      [by rewrite app_nil_r|].
    rewrite Hpost in Hpost'. simplify_eq.
    destruct Hadm as (_ & _ & _ & _ & [Hd|Hm] & _); [done|congruence].
  - intros Htype Hself t user w Hfloat Hboot Hcur Huser Hreceived.
    by rewrite (handle_post_enqueue channel posts post_id post t user w s)
      by auto.
Qed.

End PollerProofs.

(** ** Concrete runs of the poller *)



(** C3, witness of the amended statement: the step of [town-square] ends
    normally and its [last_poll_time] is the clock reading, 5000; the step of
    [off-topic] raises and its [last_poll_time] stays at 3000. *)
Lemma C3_poll_cursor_witness :
  (exists w,
     last_poll_time
       (poll_channel cfg0 town_square
          (empty_state (world_one_down [town_square]))).2 !! "town-square"
     = Some (now_millis w).1
     /\ world (poll_channel cfg0 town_square
                 (empty_state (world_one_down [town_square]))).2
        = (now_millis w).2)
  /\ last_poll_time (poll_channel cfg0 off_topic state_polled_before).2
       !! "off-topic"
     = Some (since_time_of cfg0 off_topic state_polled_before).
Proof.
  split.
  - apply (proj1 (C3_poll_cursor cfg0 town_square
                    (empty_state (world_one_down [town_square])))).
    vm_compute. reflexivity.
  - apply (proj2 (C3_poll_cursor cfg0 off_topic state_polled_before)
             (DriverError "503")).
    vm_compute. reflexivity.
Defined.

(** C3, the claim as stated fails: [off-topic] is visited, its fetch raises,
    and its [last_poll_time] stays at 3000 while the clock reads 5000. *)
Lemma C3_counterexample :
  (poll_channel cfg0 off_topic state_polled_before).1
  = Raise (DriverError "503")
  /\ last_poll_time (poll_cycle cfg0 state_polled_before).2 !! "off-topic"
     = Some 3000
  /\ (now_millis (world (poll_cycle cfg0 state_polled_before).2)).1 = 5000.
Proof. vm_compute. repeat split; reflexivity. Qed.

(** C4, witness: boot at 100 ms; the post from 50 ms is not enqueued. *)
Lemma C4_nothing_before_boot_witness :
  message_queue
    (handle_post cfg0 town_square posts_mixed "p0"
       (empty_state (world_mixed town_square))).2
  = [].
Proof.
  apply (proj1 (@C4_nothing_before_boot Script _ _ cfg0
                  ltac:(vm_compute; reflexivity))
           town_square posts_mixed "p0" (MkPost "alice-id" "@bot anyone?" 50)
           (empty_state (world_mixed town_square))).
  - vm_compute. reflexivity.
  - vm_compute. reflexivity.
Defined.

(** C5, witness: the cursor of [dm-alice] is 300; Alice's post of 300 is not
    enqueued again, read either way. *)
Lemma C5_nothing_at_or_below_cursor_witness :
  message_queue
    (handle_post cfg0 dm_alice posts_mixed "p3" state_cursor_300).2 = []
  /\ message_queue
       (handle_post cfg0 dm_alice posts_mixed "p3" state_cursor_300).2
     = message_queue state_cursor_300.
Proof.
  split.
  - apply (proj1 (proj2 (C5_nothing_at_or_below_cursor cfg0 dm_alice 300
                           state_cursor_300 ltac:(vm_compute; reflexivity)))
             posts_mixed "p3" (MkPost "alice-id" "thanks" 300)).
    + vm_compute. reflexivity.
    + vm_compute. reflexivity.
    + vm_compute. discriminate.
  - apply (proj1 (C5_nothing_at_or_below_cursor cfg0 dm_alice 300
                    state_cursor_300 ltac:(vm_compute; reflexivity))
             posts_mixed "p3" (MkPost "alice-id" "thanks" 300)).
    + vm_compute. reflexivity.
    + intros t Ht. vm_compute in Ht. simplify_eq. vm_compute. discriminate.
Defined.

(** C5, the claim as stated fails.  The cursor of [town-square] stands at
    200 and the post of 200 ms is passed over.  The worker then answers the
    event of 150 ms that was waiting, which sets the cursor to 150, and the
    same post of 200 ms, fetched again, is enqueued again. *)
Lemma C5_counterexample :
  last_processed_timestamp state_after_200 !! "town-square" = Some 200
  /\ pl_posts posts_first_poll !! "p2"
     = Some (MkPost "alice-id" "@bot two" 200)
  /\ message_queue
       (handle_post cfg0 town_square posts_first_poll "p2" state_after_200).2
     = message_queue state_after_200
  /\ message_processor_iteration cfg0 state_after_200 = Some state_after_150
  /\ last_processed_timestamp state_after_150 !! "town-square" = Some 150
  /\ message_queue state_after_150 = []
  /\ message_queue
       (handle_post cfg0 town_square posts_first_poll "p2" state_after_150).2
     = [ev_200].
Proof. vm_compute. repeat split; reflexivity. Qed.

(** C6, witness of the amended statement: one poll that sees Alice's two
    mentions newest first enqueues the one of 150 ms before the one of
    200 ms. *)
Lemma C6_fifo_within_poll_witness :
  message_queue
    (poll_channel cfg0 town_square (empty_state world_two_mentions)).2
  = [MkEvent "town-square" "@bot one" "alice" 150;
     MkEvent "town-square" "@bot two" "alice" 200]
  /\ oldest_first
       [MkEvent "town-square" "@bot one" "alice" 150;
        MkEvent "town-square" "@bot two" "alice" 200]
  /\ ev_message_time (MkEvent "town-square" "@bot one" "alice" 150)
     <= ev_message_time (MkEvent "town-square" "@bot two" "alice" 200).
Proof.
  assert (Hnf : newest_first posts_two_mentions).
  { unfold newest_first. cbn [pl_order pl_posts posts_two_mentions].
    repeat constructor.
    intros pa pb Ha Hb. vm_compute in Ha, Hb. simplify_eq. vm_compute.
    discriminate. }
  assert (Hfetch :
    get_posts_for_channel (ch_id town_square)
      (since_time_of cfg0 town_square (empty_state world_two_mentions))
      (world (empty_state world_two_mentions))
    = (Ok posts_two_mentions, world_two_mentions))
    by (vm_compute; reflexivity).
  destruct (C6_fifo_within_poll cfg0 town_square
              (empty_state world_two_mentions) posts_two_mentions
              world_two_mentions Hfetch Hnf)
    as (new & Hqueue & Hsorted & Horder).
  assert (Hnew : new = [MkEvent "town-square" "@bot one" "alice" 150;
                        MkEvent "town-square" "@bot two" "alice" 200]).
  { vm_compute in Hqueue. symmetry. exact Hqueue. }
  subst new. split; [by vm_compute|]. split; [exact Hsorted|].
  exact (Horder [] _ [] _ [] eq_refl).
Defined.

(** C6, the claim as stated fails across cycles: both answers are newest
    first; the event of 200 ms is enqueued in the first cycle, the event of
    150 ms of the same channel in the second, behind it. *)
Lemma C6_counterexample :
  message_queue (poll_cycles cfg0 2 (empty_state world_edited_post)).2
  = [MkEvent "town-square" "@bot two" "alice" 200;
     MkEvent "town-square" "@bot one" "alice" 150]
  /\ 150 < 200.
Proof. vm_compute. split; reflexivity. Qed.

(** C9, witness of the amended statement: Alice's "thanks" is passed over in
    [town-square] and enqueued in her direct-message channel. *)
Lemma C9_mention_filter_witness :
  message_queue
    (handle_post cfg0 town_square posts_mixed "p3"
       (empty_state (world_mixed town_square))).2
  = []
  /\ message_queue
       (handle_post cfg0 dm_alice posts_mixed "p3"
          (empty_state (world_mixed dm_alice))).2
     = [MkEvent "dm-alice" "thanks" "alice" 300].
Proof.
  split.
  - apply (proj1 (C9_mention_filter cfg0 town_square posts_mixed "p3"
                    (MkPost "alice-id" "thanks" 300)
                    (empty_state (world_mixed town_square))
                    ltac:(vm_compute; reflexivity))).
    + discriminate.
    + vm_compute. reflexivity.
  - apply (proj2 (C9_mention_filter cfg0 dm_alice posts_mixed "p3"
                    (MkPost "alice-id" "thanks" 300)
                    (empty_state (world_mixed dm_alice))
                    ltac:(vm_compute; reflexivity))
             eq_refl ltac:(discriminate) 300 (MkUser "alice")
             (world_mixed dm_alice)).
    + vm_compute. reflexivity.
    + vm_compute. discriminate.
    + intros last Hlast. vm_compute in Hlast. discriminate.
    + reflexivity.
    + vm_compute. reflexivity.
Defined.

(** C9, the claim as stated fails.  The bot's own reply in the
    direct-message channel is from after the boot (250 >= 100), the channel
    has no cursor, and it is not enqueued.  Neither is Alice's post of 300
    when the lookup of its sender raises, nor her post whose text ends in a
    lone surrogate: the print of line 217 raises before the put. *)
Lemma C9_counterexample :
  ch_type dm_alice = "D"
  /\ pl_posts posts_mixed !! "p2" = Some (MkPost "bot-id" "hi there" 250)
  /\ boot_time cfg0 <= 250
  /\ last_processed_timestamp (empty_state (world_mixed dm_alice))
       !! "dm-alice" = None
  /\ handle_post cfg0 dm_alice posts_mixed "p2"
       (empty_state (world_mixed dm_alice))
     = (Ok tt, empty_state (world_mixed dm_alice))
  /\ pl_posts posts_mixed !! "p3" = Some (MkPost "alice-id" "thanks" 300)
  /\ handle_post cfg0 dm_alice posts_mixed "p3" (empty_state world_lookup_down)
     = (Raise (DriverError "404"), empty_state world_lookup_down)
  /\ handle_post cfg0 dm_alice posts_surrogate "p5"
       (empty_state (world_mixed dm_alice))
     = (Raise UnicodeEncodeError, empty_state (world_mixed dm_alice)).
Proof. vm_compute. repeat split; try reflexivity. discriminate. Qed.

(** * Further properties of the code *)

(** ** [bot_is_mentioned]: lines 150-152 *)

Lemma append_nil (s : string) : String.append "" s = s.
Proof. reflexivity. Qed.

Lemma append_cons (a : Ascii.ascii) (s t : string) :
  String.append (String a s) t = String a (String.append s t).
Proof. reflexivity. Qed.

Lemma append_assoc (a b c : string) :
  String.append (String.append a b) c = String.append a (String.append b c).
Proof.
  induction a as [|ch a IH]; [done|]. by rewrite !append_cons, IH.
Qed.

Lemma prefix_iff (needle hay : string) :
  String.prefix needle hay = true
  <-> exists suf, hay = String.append needle suf.
Proof.
  revert hay. induction needle as [|a needle IH]; intros hay.
  - destruct hay; cbn; split; eauto.
  - destruct hay as [|b hay]; cbn.
    + split; [done | intros [suf Hs]; by rewrite append_cons in Hs].
    + destruct (Ascii.ascii_dec a b) as [->|Hne].
      * rewrite IH. split; intros [suf Hs]; exists suf.
        -- by rewrite append_cons, Hs.
        -- rewrite append_cons in Hs. congruence.
      * split; [done | intros [suf Hs]; rewrite append_cons in Hs; congruence].
Qed.

Lemma str_contains_iff (needle hay : string) :
  str_contains needle hay = true
  <-> exists pre suf, hay = String.append pre (String.append needle suf).
Proof.
  induction hay as [|a hay IH]; cbn [str_contains].
  - rewrite orb_false_r, prefix_iff. split.
    + intros [suf Hs]. by exists "", suf.
    + intros (pre & suf & Hs). destruct pre; [by exists suf | done].
  - rewrite orb_true_iff, prefix_iff, IH. split.
    + intros [[suf Hs]|(pre & suf & Hs)].
      * by exists "", suf.
      * exists (String a pre), suf. by rewrite append_cons, Hs.
    + intros (pre & suf & Hs). destruct pre as [|b pre].
      * left. by exists suf.
      * right. exists pre, suf. rewrite append_cons in Hs. congruence.
Qed.

(** X1.  The bot counts as mentioned exactly when the message contains the
    character [@] directly followed by the bot's username, at any position
    and with anything before and after it. *)
Theorem X1_bot_is_mentioned_iff (message username : string) :
  bot_is_mentioned message username = true
  <-> exists pre suf,
        message
        = String.append pre (String.append (String.append "@" username) suf).
Proof.
  unfold bot_is_mentioned. split.
  - intros Hin. by apply str_contains_iff in Hin.
  - intros (pre & suf & Hmsg). apply str_contains_iff. by exists pre, suf.
Qed.

(** X2.  The test is a substring test, not a word test: a message that
    mentions a longer handle which starts with the bot's username mentions
    the bot as well. *)
Theorem X2_longer_handle_mentions (message username more : string) :
  bot_is_mentioned message (String.append username more) = true ->
  bot_is_mentioned message username = true.
Proof.
  unfold bot_is_mentioned. rewrite !str_contains_iff.
  intros (pre & suf & ->). exists pre, (String.append more suf).
  f_equal. by rewrite !append_assoc.
Qed.

(** X1, run: a mention in the middle of a sentence. *)
Lemma X1_bot_is_mentioned_iff_witness :
  bot_is_mentioned "hello @bot, are you there?" "bot" = true.
Proof.
  apply (proj2 (X1_bot_is_mentioned_iff "hello @bot, are you there?" "bot")).
  exists "hello ", ", are you there?". reflexivity.
Defined.

(** X2, run: a message for [@bottle] counts as a mention of [bot]. *)
Lemma X2_longer_handle_mentions_witness :
  bot_is_mentioned "ask @bottle instead" "bot" = true.
Proof.
  apply (X2_longer_handle_mentions "ask @bottle instead" "bot" "tle").
  reflexivity.
Defined.

(** ** [get_ollama_response] and the worker's turn *)

Section WorkerExtras.
Context {World : Type} `{!Externals World} `{!Console World}.
Variable cfg : Config.

Implicit Types (s : pystate World) (ev : QueueEvent).

(** X3.  [get_ollama_response] never raises: whatever the request does, the
    caller gets a pair of reply text and context back.  It makes one
    request, which carries the caller's context only when tracking is on and
    the context is not empty, and it leaves the bot's four globals alone. *)
Theorem X3_get_ollama_response_never_raises prompt context s :
  exists txt ctx,
    get_ollama_response cfg prompt context s
    = (Ok (txt, ctx),
       with_world s
         (requests_post
            (MkRequest (OLLAMA_MODEL cfg) prompt
               (match context with
                | Some c =>
                    if ENABLE_CONTEXT_TRACKING cfg && truthy c
                    then Some c else None
                | None => None
                end)) (world s)).2).
Proof.
  rewrite get_ollama_response_flat.
  destruct (ollama_reply _) as [txt ctx]. by exists txt, ctx.
Qed.

(** X4.  When the request that [get_ollama_response] makes gives nothing
    usable (it throws, the status is not 200, or the body of a 200 answer is
    not JSON), the returned text starts with ["Error: "] and the returned
    context is the empty string. *)
Theorem X4_failure_reply prompt context s :
  inference_unusable
    (requests_post
       (MkRequest (OLLAMA_MODEL cfg) prompt
          (match context with
           | Some c =>
               if ENABLE_CONTEXT_TRACKING cfg && truthy c
               then Some c else None
           | None => None
           end)) (world s)).1 ->
  exists txt w,
    get_ollama_response cfg prompt context s
    = (Ok (txt, CtxStr ""), with_world s w)
    /\ String.prefix "Error: " txt = true.
Proof.
  intros Hfail. rewrite get_ollama_response_flat.
  destruct (requests_post _ (world s)) as [[response|e] w]; cbn in *.
  - unfold ollama_reply.
    destruct (Z.eqb_spec (status_code response) 200) as [Heq|Hne].
    + destruct Hfail as [Hne|[e He]]; [done|]. rewrite He.
      eexists _, w. split; reflexivity.
    + eexists _, w. split; [reflexivity|].
      apply prefix_iff.
      by exists (String.append "Ollama returned status code "
                   (pretty (status_code response))).
  - eexists _, w. split; reflexivity.
Qed.

(** X5.  With tracking on, when the request of the turn is answered 200 with
    a JSON body and the reply line of line 122 has been printed, the
    sender's entry holds the context of that answer, stamped with the time
    of this turn; an answer without a ["context"] key therefore leaves the
    sender with the empty context, whatever was stored before. *)
Theorem X5_answer_context_stored ev s response js :
  ENABLE_CONTEXT_TRACKING cfg = true ->
  (turn_answer cfg ev s).1 = Ok response ->
  status_code response = 200 ->
  response_json response = Ok js ->
  (print
     (line_ollama_response
        (default "No response from Ollama" (json_response js)))
     (turn_answer cfg ev s).2).1 = Ok tt ->
  user_context (process_event cfg ev s).2 !! ev_sender_username ev
  = Some (default (CtxStr "") (json_context js), (datetime_now (world s)).1).
Proof.
  intros Hon Hanswer Hstatus Hjson Hprint.
  rewrite process_event_flat. unfold turn_print, turn_reply.
  rewrite Hanswer. unfold ollama_reply. rewrite Hstatus, Hjson.
  cbn [fst snd Z.eqb Pos.eqb]. rewrite Hprint, Hon. cbn.
  by rewrite lookup_insert_eq.
Qed.

(** X6.  A turn of the worker takes exactly the head of the queue and puts
    nothing back, whether or not the reply could be posted; on an empty
    queue there is no turn.  The worker never writes [last_poll_time]. *)
Theorem X6_turn_consumes_head s :
  match message_processor_iteration cfg s with
  | None => message_queue s = []
  | Some s' =>
      exists ev, message_queue s = ev :: message_queue s'
                 /\ last_poll_time s' = last_poll_time s
  end.
Proof.
  unfold message_processor_iteration.
  destruct (message_queue s) as [|ev rest] eqn:Hq; [done|].
  exists ev. unfold try_except.
  rewrite process_event_flat.
  destruct (turn_print cfg ev (with_message_queue s rest)).1; [|done].
  by destruct (create_post _ _ _).1.
Qed.

(** X7.  A turn of the worker for an event writes at most two map entries:
    the cursor of the event's channel and the context of the event's
    sender.  The cursors of other channels and the contexts of other users
    are as before. *)
Theorem X7_turn_writes_own_entries ev s :
  (forall channel_id, channel_id <> ev_channel_id ev ->
     last_processed_timestamp (process_event cfg ev s).2 !! channel_id
     = last_processed_timestamp s !! channel_id)
  /\ (forall user_id, user_id <> ev_sender_username ev ->
        user_context (process_event cfg ev s).2 !! user_id
        = user_context s !! user_id).
Proof.
  assert (Hentries : forall user_id, user_id <> ev_sender_username ev ->
            turn_entries ev s !! user_id = user_context s !! user_id).
  { intros user_id Hne. unfold turn_entries.
    destruct (user_context s !! ev_sender_username ev); [done|].
    by rewrite lookup_insert_ne. }
  rewrite process_event_flat. split.
  - intros channel_id Hne.
    destruct (turn_print cfg ev s).1; [|done]. cbn.
    destruct (create_post _ _ _).1; [|done]. by rewrite lookup_insert_ne.
  - intros user_id Hne.
    destruct (turn_print cfg ev s).1; cbn; [|by apply Hentries].
    destruct (ENABLE_CONTEXT_TRACKING cfg); [|by apply Hentries].
    rewrite lookup_insert_ne by done. by apply Hentries.
Qed.

(** X8.  The turn can raise in two places.  When the print of line 122
    raises, nothing has been written but the first-sight entry of the
    sender: no cursor, no context, and no post is made.  When the line has
    been printed and posting the reply raises, the cursor map is left as it
    was, but with tracking on the sender's context has already been replaced
    and stamped with the time of this turn. *)
Theorem X8_failed_post ev s e :
  ((turn_print cfg ev s).1 = Raise e ->
   process_event cfg ev s
   = (Raise e,
      MkState (turn_print cfg ev s).2 (last_processed_timestamp s)
        (last_poll_time s) (message_queue s) (turn_entries ev s)))
  /\ ((turn_print cfg ev s).1 = Ok tt ->
      (create_post (ev_channel_id ev) (turn_reply cfg ev s).1
         (turn_print cfg ev s).2).1 = Raise e ->
      (process_event cfg ev s).1 = Raise e
      /\ last_processed_timestamp (process_event cfg ev s).2
         = last_processed_timestamp s
      /\ (ENABLE_CONTEXT_TRACKING cfg = true ->
          user_context (process_event cfg ev s).2 !! ev_sender_username ev
          = Some ((turn_reply cfg ev s).2, (datetime_now (world s)).1))).
Proof.
  rewrite process_event_flat. split.
  - by intros ->.
  - intros -> ->. cbn. split; [done|]. split; [done|].
    intros ->. by rewrite lookup_insert_eq.
Qed.

(** X9.  With tracking on, an expired context has no influence on the turn:
    the request made, the line printed, the outcome, the world and the
    cursors are the same as if the stored context had been empty, and when
    the line of line 122 has been printed so is the whole final state. *)
Theorem X9_expired_context_is_ignored ev s c last :
  ENABLE_CONTEXT_TRACKING cfg = true ->
  user_context s !! ev_sender_username ev = Some (c, last) ->
  (datetime_now (world s)).1 - last > CONTEXT_EXPIRATION_DURATION ->
  turn_request cfg ev
    (with_user_context s
       (<[ev_sender_username ev := (CtxStr "", last)]> (user_context s)))
  = turn_request cfg ev s
  /\ (process_event cfg ev
        (with_user_context s
           (<[ev_sender_username ev := (CtxStr "", last)]> (user_context s)))).1
     = (process_event cfg ev s).1
  /\ world
       (process_event cfg ev
          (with_user_context s
             (<[ev_sender_username ev := (CtxStr "", last)]>
                (user_context s)))).2
     = world (process_event cfg ev s).2
  /\ last_processed_timestamp
       (process_event cfg ev
          (with_user_context s
             (<[ev_sender_username ev := (CtxStr "", last)]>
                (user_context s)))).2
     = last_processed_timestamp (process_event cfg ev s).2
  /\ ((turn_print cfg ev s).1 = Ok tt ->
      process_event cfg ev s
      = process_event cfg ev
          (with_user_context s
             (<[ev_sender_username ev := (CtxStr "", last)]>
                (user_context s)))).
Proof.
  intros Hon Hlook Hexp.
  set (s' := with_user_context s
               (<[ev_sender_username ev := (CtxStr "", last)]>
                  (user_context s))).
  assert (Hctx : turn_context cfg ev s' = turn_context cfg ev s).
  { unfold turn_context, turn_time, s'.
    cbn [world user_context with_user_context].
    rewrite Hlook, lookup_insert_eq, Hon.
    by rewrite (proj2 (Z.ltb_lt _ _)) by lia. }
  assert (Hreq : turn_request cfg ev s' = turn_request cfg ev s)
    by (unfold turn_request; by rewrite Hctx).
  assert (Hans : turn_answer cfg ev s' = turn_answer cfg ev s)
    by (unfold turn_answer; by rewrite Hreq).
  assert (Hrep : turn_reply cfg ev s' = turn_reply cfg ev s)
    by (unfold turn_reply; by rewrite Hans).
  assert (Hpr : turn_print cfg ev s' = turn_print cfg ev s)
    by (unfold turn_print; by rewrite Hrep, Hans).
  assert (Hent : turn_entries ev s' = user_context s').
  { unfold turn_entries, s'. cbn [user_context with_user_context].
    by rewrite lookup_insert_eq. }
  assert (Hent0 : turn_entries ev s = user_context s).
  { unfold turn_entries. by rewrite Hlook. }
  split; [done|].
  rewrite !process_event_flat, Hpr, Hrep, Hent, Hent0, Hon.
  unfold s'. cbn [world user_context with_user_context
                  last_processed_timestamp last_poll_time message_queue].
  rewrite insert_insert_eq.
  destruct (turn_print cfg ev s).1 as [[]|e]; by repeat split.
Qed.

(** X10.  With tracking off the worker never stores what Ollama returns: the
    only write to [user_context] is the empty entry for a user seen for the
    first time.  The reply does not depend on the stored contexts. *)
Theorem X10_tracking_off ev s :
  ENABLE_CONTEXT_TRACKING cfg = false ->
  user_context (process_event cfg ev s).2
  = match user_context s !! ev_sender_username ev with
    | Some _ => user_context s
    | None => <[ev_sender_username ev := (CtxStr "", (datetime_now (world s)).1)]>
                (user_context s)
    end
  /\ (forall contexts,
        (process_event cfg ev (with_user_context s contexts)).1
        = (process_event cfg ev s).1
        /\ world (process_event cfg ev (with_user_context s contexts)).2
          = world (process_event cfg ev s).2).
Proof.
  intros Hoff. split.
  - rewrite process_event_flat, Hoff.
    by destruct (turn_print cfg ev s).1.
  - intros contexts.
    assert (Hreq : turn_request cfg ev (with_user_context s contexts)
                   = turn_request cfg ev s)
      by (unfold turn_request; by rewrite Hoff).
    assert (Hans : turn_answer cfg ev (with_user_context s contexts)
                   = turn_answer cfg ev s)
      by (unfold turn_answer; by rewrite Hreq).
    assert (Hrep : turn_reply cfg ev (with_user_context s contexts)
                   = turn_reply cfg ev s)
      by (unfold turn_reply; by rewrite Hans).
    assert (Hpr : turn_print cfg ev (with_user_context s contexts)
                  = turn_print cfg ev s)
      by (unfold turn_print; by rewrite Hrep, Hans).
    rewrite !process_event_flat, Hpr, Hrep.
    by destruct (turn_print cfg ev s).1.
Qed.

(** X11.  Entries are never removed: a channel that has a cursor and a user
    who has a context entry still have one after a turn of the worker, and
    the sender of the event has an entry afterwards in any case. *)
Theorem X11_entries_are_kept ev s :
  (forall channel_id,
     is_Some (last_processed_timestamp s !! channel_id) ->
     is_Some (last_processed_timestamp (process_event cfg ev s).2
                !! channel_id))
  /\ (forall user_id,
        is_Some (user_context s !! user_id) ->
        is_Some (user_context (process_event cfg ev s).2 !! user_id))
  /\ is_Some (user_context (process_event cfg ev s).2
               !! ev_sender_username ev).
Proof.
  assert (Hkept : forall user_id, is_Some (user_context s !! user_id) ->
            is_Some (turn_entries ev s !! user_id)).
  { intros user_id Hsome. unfold turn_entries.
    destruct (user_context s !! ev_sender_username ev); [done|].
    rewrite lookup_insert. by case_decide. }
  assert (Hown : is_Some (turn_entries ev s !! ev_sender_username ev)).
  { unfold turn_entries.
    destruct (user_context s !! ev_sender_username ev) eqn:Hl;
      [by rewrite Hl | by rewrite lookup_insert_eq]. }
  rewrite process_event_flat. split; [|split].
  - intros channel_id Hsome.
    destruct (turn_print cfg ev s).1; [|done]. cbn.
    destruct (create_post _ _ _).1; [|done].
    rewrite lookup_insert. by case_decide.
  - intros user_id Hsome.
    destruct (turn_print cfg ev s).1; cbn; [|by apply Hkept].
    destruct (ENABLE_CONTEXT_TRACKING cfg); [|by apply Hkept].
    rewrite lookup_insert. case_decide; [done | by apply Hkept].
  - destruct (turn_print cfg ev s).1; cbn; [|done].
    destruct (ENABLE_CONTEXT_TRACKING cfg); [|done].
    by rewrite lookup_insert_eq.
Qed.

End WorkerExtras.


(** ** The poller *)

Section PollerExtras.
Context {World : Type} `{!Externals World} `{!Console World}.
Variable cfg : Config.

Implicit Types (s : pystate World) (ev : QueueEvent) (channel : Channel).

(** A post from before the boot, or not newer than the channel's cursor, is
    passed over: when it is not the bot's own, the one thing done is the
    print of line 197 or of line 203. *)
Lemma handle_post_skip channel posts post_id post t s :
  pl_posts posts !! post_id = Some post ->
  py_float (post_create_at post) = Ok t ->
  t < boot_time cfg
  \/ (exists last,
        last_processed_timestamp s !! ch_id channel = Some last /\ t <= last) ->
  handle_post cfg channel posts post_id s
  = if String.eqb (post_user_id post) (bot_user_id cfg) then (Ok tt, s)
    else call (print (if t <? boot_time cfg
                      then line_skipping_old channel (post_message post)
                      else line_skipping_processed channel
                             (post_message post))) s.
Proof.
  intros Hpost Hfloat Hskip.
  unfold handle_post, subscript. rewrite Hpost, bind_ret.
  destruct (String.eqb_spec (post_user_id post) (bot_user_id cfg))
    as [Hself|Hself]; [done|]. cbn [negb].
  rewrite Hfloat. cbn [lift_outcome]. rewrite bind_ret.
  destruct (Z.ltb_spec t (boot_time cfg)) as [Hboot|Hboot]; [done|].
  destruct Hskip as [Hold|(last & Hlast & Hle)]; [lia|].
  rewrite bind_get_state, Hlast.
  by rewrite (proj2 (Z.geb_le _ _)) by lia.
Qed.

(** X12.  The sender of a post is looked up only when the post can still be
    enqueued.  For the bot's own post [handle_post] returns with the state,
    the world included, exactly as it was.  For another post from before the
    boot, or at or below the channel's cursor, the one thing it does is the
    print of line 197, respectively of line 203: it ends as that print ends,
    and no global is written. *)
Theorem X12_skipped_post_costs_nothing channel posts post_id post s :
  pl_posts posts !! post_id = Some post ->
  (post_user_id post = bot_user_id cfg ->
   handle_post cfg channel posts post_id s = (Ok tt, s))
  /\ (post_user_id post <> bot_user_id cfg ->
      forall t, py_float (post_create_at post) = Ok t ->
        (t < boot_time cfg ->
         handle_post cfg channel posts post_id s
         = call (print (line_skipping_old channel (post_message post))) s)
        /\ (boot_time cfg <= t ->
            forall last,
              last_processed_timestamp s !! ch_id channel = Some last ->
              t <= last ->
              handle_post cfg channel posts post_id s
              = call (print (line_skipping_processed channel
                               (post_message post))) s)).
Proof.
  intros Hpost. split.
  - intros Hown. unfold handle_post, subscript. rewrite Hpost, bind_ret.
    by rewrite (proj2 (String.eqb_eq _ _) Hown).
  - intros Hother t Hfloat.
    apply String.eqb_neq in Hother. split.
    + intros Hold.
      rewrite (handle_post_skip channel posts post_id post t s) by auto.
      by rewrite Hother, (proj2 (Z.ltb_lt _ _) Hold).
    + intros Hboot last Hlast Hle.
      rewrite (handle_post_skip channel posts post_id post t s)
        by (try done; right; by exists last).
      by rewrite Hother, (proj2 (Z.ltb_ge _ _) Hboot).
Qed.

(** X13.  [handle_post] raises in four ways only: the id listed in
    ["order"] is missing from ["posts"] ([KeyError]); [create_at] of a post
    that is not the bot's own is too large for a float ([OverflowError]);
    the lookup of the sender raises; or one of its prints raises.  Nothing
    has been enqueued then, except when the print is the one of line 222,
    which comes after the put. *)
Theorem X13_handle_post_raises channel posts post_id s e :
  (handle_post cfg channel posts post_id s).1 = Raise e ->
  (pl_posts posts !! post_id = None /\ e = KeyError post_id
   /\ message_queue (handle_post cfg channel posts post_id s).2
      = message_queue s)
  \/ exists post,
       pl_posts posts !! post_id = Some post
       /\ post_user_id post <> bot_user_id cfg
       /\ ((py_float (post_create_at post) = Raise e /\ e = OverflowError
            /\ message_queue (handle_post cfg channel posts post_id s).2
               = message_queue s)
           \/ ((get_user (post_user_id post) (world s)).1 = Raise e
               /\ message_queue (handle_post cfg channel posts post_id s).2
                  = message_queue s)
           \/ exists text w,
                (print text w).1 = Raise e
                /\ (message_queue (handle_post cfg channel posts post_id s).2
                    = message_queue s
                    \/ exists user t,
                         text = line_queued channel (user_username user)
                         /\ py_float (post_create_at post) = Ok t
                         /\ message_queue
                              (handle_post cfg channel posts post_id s).2
                            = message_queue s
                              ++ [MkEvent (ch_id channel) (post_message post)
                                    (user_username user) t])).
Proof.
  unfold handle_post, subscript.
  destruct (pl_posts posts !! post_id) as [post|] eqn:Hpost.
  2:{ cbn. intros [= <-]. by left. }
  rewrite bind_ret.
  destruct (String.eqb_spec (post_user_id post) (bot_user_id cfg))
    as [Hself|Hself]; [done|]. cbn [negb].
  intros Hraise. right. exists post. split; [done|]. split; [done|].
  revert Hraise.
  destruct (py_float (post_create_at post)) as [t|e'] eqn:Hfloat.
  2:{ cbn. intros [= <-]. left. split; [done|]. split; [|done].
      unfold py_float in Hfloat. cbv zeta in Hfloat.
      case_match; by simplify_eq. }
  cbn [lift_outcome]. rewrite bind_ret.
  destruct (Z.ltb_spec t (boot_time cfg)).
  { unfold call.
    destruct (print (line_skipping_old channel (post_message post)) (world s))
      as [r w] eqn:Hp.
    cbn. intros ->. right. right.
    eexists _, (world s). rewrite Hp. split; [done|]. by left. }
  rewrite bind_get_state.
  destruct (match last_processed_timestamp s !! ch_id channel with
            | Some last => last >=? t
            | None => false
            end).
  { unfold call.
    destruct (print (line_skipping_processed channel (post_message post))
                (world s)) as [r w] eqn:Hp.
    cbn. intros ->. right. right.
    eexists _, (world s). rewrite Hp. split; [done|]. by left. }
  unfold bind, call.
  destruct (get_user (post_user_id post) (world s)) as [[user|e'] w] eqn:Hu.
  2:{ cbn. intros [= <-]. right. by left. }
  cbn.
  destruct (negb (ch_type channel =? "D")%string
            && negb (bot_is_mentioned (post_message post) (bot_username cfg)));
    change (world (with_world s w)) with w.
  { destruct (print (line_not_mentioned channel (user_username user)) w)
      as [r w'] eqn:Hp.
    cbn. intros ->. right. right.
    eexists _, w. rewrite Hp. split; [done|]. by left. }
  destruct (print (line_received channel (user_username user)
                     (post_message post)) w) as [[[]|e1] w1] eqn:Hp1.
  2:{ cbn. intros [= <-]. right. right.
      eexists _, w. rewrite Hp1. split; [done|]. by left. }
  cbn.
  destruct (print (line_queued channel (user_username user)) w1)
    as [r w2] eqn:Hp2.
  cbn. intros ->. right. right.
  eexists _, w1. rewrite Hp2. split; [done|]. right. by exists user, t.
Qed.

(** X14.  Nothing but the cursor guards against repeats: when the same post
    is handled twice before the worker has advanced the channel's cursor,
    and the line of line 217 is printed both times, it is enqueued twice. *)
Theorem X14_enqueued_twice channel posts post_id post t user w w1 r w2
    user' w' s :
  pl_posts posts !! post_id = Some post ->
  post_user_id post <> bot_user_id cfg ->
  py_float (post_create_at post) = Ok t ->
  boot_time cfg <= t ->
  (forall last, last_processed_timestamp s !! ch_id channel = Some last ->
     last < t) ->
  ch_type channel = "D"
  \/ bot_is_mentioned (post_message post) (bot_username cfg) = true ->
  get_user (post_user_id post) (world s) = (Ok user, w) ->
  print (line_received channel (user_username user) (post_message post)) w
  = (Ok tt, w1) ->
  print (line_queued channel (user_username user)) w1 = (r, w2) ->
  get_user (post_user_id post) w2 = (Ok user', w') ->
  (print (line_received channel (user_username user') (post_message post))
     w').1 = Ok tt ->
  message_queue
    (handle_post cfg channel posts post_id
       (handle_post cfg channel posts post_id s).2).2
  = message_queue s
    ++ [MkEvent (ch_id channel) (post_message post) (user_username user) t;
        MkEvent (ch_id channel) (post_message post) (user_username user') t].
Proof.
  intros Hpost Hself Hfloat Hboot Hcur Hmention Huser Hp1 Hp2 Huser' Hp1'.
  rewrite (handle_post_enqueue cfg channel posts post_id post t user w s)
    by (try done; by rewrite Hp1).
  rewrite Hp1. cbn [snd]. rewrite Hp2. cbn [snd].
  rewrite (handle_post_enqueue cfg channel posts post_id post t user' w')
    by done.
  cbn. by rewrite <- app_assoc.
Qed.


(** X16.  A post of an ordinary channel that mentions the bot, gets through
    the checks and has its line of line 217 printed is enqueued as the tuple
    of the channel's id, the post's text unchanged, the username the driver
    returns for its author and, for every timestamp a double holds exactly,
    its [create_at].  [handle_post] then ends as the print of line 222
    ends. *)
Theorem X16_mentioned_post_enqueued channel posts post_id post user w w1 s :
  pl_posts posts !! post_id = Some post ->
  post_user_id post <> bot_user_id cfg ->
  Z.abs (post_create_at post) <= 2 ^ 53 ->
  boot_time cfg <= post_create_at post ->
  (forall last, last_processed_timestamp s !! ch_id channel = Some last ->
     last < post_create_at post) ->
  get_user (post_user_id post) (world s) = (Ok user, w) ->
  bot_is_mentioned (post_message post) (bot_username cfg) = true ->
  print (line_received channel (user_username user) (post_message post)) w
  = (Ok tt, w1) ->
  handle_post cfg channel posts post_id s
  = ((print (line_queued channel (user_username user)) w1).1,
     with_message_queue
       (with_world s (print (line_queued channel (user_username user)) w1).2)
       (message_queue s
        ++ [MkEvent (ch_id channel) (post_message post) (user_username user)
              (post_create_at post)])).
Proof.
  intros Hpost Hself Hrange Hboot Hcur Huser Hmention Hp1.
  rewrite (handle_post_enqueue cfg channel posts post_id post
             (post_create_at post) user w s); try done.
  - by rewrite Hp1.
  - by apply py_float_exact.
  - by right.
  - by rewrite Hp1.
Qed.

(** ** Cycles *)

Lemma poll_cycles_returns n s : (poll_cycles cfg n s).1 = Ok tt.
Proof.
  revert s. induction n as [|n IH]; intros s; cbn; [done|].
  unfold bind. pose proof (poll_cycle_returns cfg s) as Hc.
  destruct (poll_cycle cfg s) as [[[]|e] s1]; [apply IH | done].
Qed.

(** Whatever holds across a step of the world and across a channel's step,
    and is closed under composition, holds across any number of cycles. *)
Lemma poll_cycles_lift (R : pystate World -> pystate World -> Prop) :
  (forall s, R s s) ->
  (forall s1 s2 s3, R s1 s2 -> R s2 s3 -> R s1 s3) ->
  (forall s w, R s (with_world s w)) ->
  (forall channel s, R s (poll_channel cfg channel s).2) ->
  forall n s, R s (poll_cycles cfg n s).2.
Proof.
  intros Hrefl Htrans Hworld Hchannel.
  assert (Hloop : forall channels s,
            R s (for_each channels (poll_channel cfg) s).2).
  { induction channels as [|channel channels IH]; intros s; cbn; [done|].
    unfold bind. specialize (Hchannel channel s).
    destruct (poll_channel cfg channel s) as [[[]|e] s1]; [|done].
    eapply Htrans; [exact Hchannel | apply IH]. }
  assert (Hcycle : forall s, R s (poll_cycle cfg s).2).
  { intros s. unfold poll_cycle, try_except, bind, call.
    destruct (get_channels_for_user (world s)) as [[channels|e] w]; cbn;
      [|apply Hworld].
    specialize (Hloop channels (with_world s w)).
    destruct (for_each channels (poll_channel cfg) (with_world s w))
      as [[[]|e] s2]; (eapply Htrans; [apply Hworld | exact Hloop]). }
  induction n as [|n IH]; intros s; cbn; [done|].
  unfold bind. specialize (Hcycle s).
  destruct (poll_cycle cfg s) as [[[]|e] s1]; [|done].
  eapply Htrans; [exact Hcycle | apply IH].
Qed.

Lemma poll_channel_entries channel s :
  poll_entries_kept s (poll_channel cfg channel s).2
  /\ is_Some (last_poll_time (poll_channel cfg channel s).2 !! ch_id channel).
Proof.
  destruct (poll_channel_run cfg channel s)
    as (r & w & new & lp & Hrun & Hraise & Hok & _).
  rewrite Hrun. cbn [snd last_poll_time].
  assert (Hinit : forall k, is_Some (last_poll_time s !! k) ->
            is_Some (poll_time_initialised cfg channel s !! k)).
  { intros k Hk. unfold poll_time_initialised.
    destruct (last_poll_time s !! ch_id channel); [done|].
    rewrite lookup_insert. by case_decide. }
  assert (Hown : is_Some (poll_time_initialised cfg channel s !! ch_id channel)).
  { unfold poll_time_initialised.
    destruct (last_poll_time s !! ch_id channel) eqn:Hl;
      [by rewrite Hl | by rewrite lookup_insert_eq]. }
  destruct r as [[]|e].
  - destruct (Hok eq_refl) as (w2 & -> & _). split.
    + intros k Hk. cbn. rewrite lookup_insert. case_decide; [done|].
      by apply Hinit.
    + by rewrite lookup_insert_eq.
  - rewrite (Hraise e eq_refl). split; [|done].
    intros k Hk. by apply Hinit.
Qed.


(** X18.  A channel's step leaves the channel with a [last_poll_time],
    whether it ends normally or by an error, and no number of cycles ever
    removes the [last_poll_time] of a channel. *)
Theorem X18_poll_entries_kept :
  (forall channel s,
     is_Some (last_poll_time (poll_channel cfg channel s).2 !! ch_id channel))
  /\ (forall n s, poll_entries_kept s (poll_cycles cfg n s).2).
Proof.
  split; [intros channel s; apply poll_channel_entries|].
  apply poll_cycles_lift.
  - by intros s k.
  - intros s1 s2 s3 H12 H23 k Hk. by apply H23, H12.
  - by intros s w k.
  - intros channel s. apply poll_channel_entries.
Qed.

(** X19.  Every event that a channel's step enqueues is tagged with that
    channel's id and carries, unchanged, the text of a post of the fetched
    answer that was not written by the bot itself. *)
Theorem X19_events_come_from_posts channel s :
  exists new,
    message_queue (poll_channel cfg channel s).2 = message_queue s ++ new
    /\ Forall (fun ev =>
         ev_channel_id ev = ch_id channel
         /\ exists posts w1 post_id post,
              get_posts_for_channel (ch_id channel)
                (since_time_of cfg channel s) (world s) = (Ok posts, w1)
              /\ post_id ∈ pl_order posts
              /\ pl_posts posts !! post_id = Some post
              /\ ev_message_text ev = post_message post
              /\ post_user_id post <> bot_user_id cfg) new.
Proof.
  destruct (poll_channel_run cfg channel s)
    as (r & w & new & lp & Hrun & _ & _ & Hnew & _).
  exists new. rewrite Hrun. split; [done|].
  eapply Forall_impl; [exact Hnew|].
  intros ev (posts & w1 & post_id & post & Hfetch & Hin & Hpost & Hadm).
  destruct Hadm as (Hself & _ & _ & _ & _ & Hid & Htext).
  split; [done|]. by exists posts, w1, post_id, post.
Qed.

End PollerExtras.

(** ** Start-up *)

Section StartupExtras.
Context {World : Type} `{!Externals World} `{!Console World}
  `{!StartupExternals World}.

Implicit Types (s : pystate World).

Lemma call_untouched {A} (f : World -> outcome A * World) s :
  globals_untouched s (call f s).2.
Proof. unfold call. by destruct (f (world s)). Qed.


End StartupExtras.

(** ** Concrete runs for the further properties *)

(** X4, run: Ollama answers 500. *)
Lemma X4_failure_reply_witness :
  exists txt w,
    get_ollama_response cfg0 "hi" None (state_alice http_500 11000000)
    = (Ok (txt, CtxStr ""), with_world (state_alice http_500 11000000) w)
    /\ String.prefix "Error: " txt = true.
Proof.
  apply (X4_failure_reply cfg0 "hi" None (state_alice http_500 11000000)).
  left. vm_compute. discriminate.
Defined.

(** X5, run: Ollama answers 200 with three tokens; they are stored for Alice. *)
Lemma X5_answer_context_stored_witness :
  user_context
    (process_event cfg0 ev_thanks (state_alice http_ok 11000000)).2 !! "alice"
  = Some (CtxTokens [1; 2; 3], 11000000).
Proof.
  assert (Hprint :
    (print (line_ollama_response "hi there")
       (turn_answer cfg0 ev_thanks (state_alice http_ok 11000000)).2).1
    = Ok tt) by (vm_compute; reflexivity).
  exact (X5_answer_context_stored cfg0 ev_thanks (state_alice http_ok 11000000)
           (MkResponse 200
              (Ok (MkJson (Some "hi there") (Some (CtxTokens [1; 2; 3])))))
           (MkJson (Some "hi there") (Some (CtxTokens [1; 2; 3])))
           eq_refl eq_refl eq_refl eq_refl Hprint).
Defined.

(** X7, run: a turn for Alice in [dm-alice] leaves [town-square] and Bob alone. *)
Lemma X7_turn_writes_own_entries_witness :
  last_processed_timestamp (process_event cfg0 ev_thanks state_cursor_300).2
    !! "town-square"
  = last_processed_timestamp state_cursor_300 !! "town-square"
  /\ user_context (process_event cfg0 ev_thanks state_cursor_300).2 !! "bob"
     = user_context state_cursor_300 !! "bob".
Proof.
  destruct (X7_turn_writes_own_entries cfg0 ev_thanks state_cursor_300)
    as [Hcur Hctx].
  split; [apply Hcur | apply Hctx]; discriminate.
Defined.

(** X8, run: the reply ends in a lone surrogate, so the print of line 122
    raises and nothing is stored or posted; and posting fails with 403, so
    no cursor is written but Alice's entry is. *)
Lemma X8_failed_post_witness :
  process_event cfg0 ev_thanks
    (empty_state (quiet_world http_surrogate 11000000))
  = (Raise UnicodeEncodeError,
     MkState (quiet_world http_surrogate 11000000) ∅ ∅ []
       {[ "alice" := (CtxStr "", 11000000) ]})
  /\ last_processed_timestamp
       (process_event cfg0 ev_thanks (empty_state world_post_down)).2 = ∅
  /\ user_context
       (process_event cfg0 ev_thanks (empty_state world_post_down)).2
       !! "alice" = Some (CtxTokens [1; 2; 3], 11000000).
Proof.
  assert (Hraise :
    (turn_print cfg0 ev_thanks
       (empty_state (quiet_world http_surrogate 11000000))).1
    = Raise UnicodeEncodeError) by (vm_compute; reflexivity).
  assert (Hprint :
    (turn_print cfg0 ev_thanks (empty_state world_post_down)).1 = Ok tt)
    by (vm_compute; reflexivity).
  assert (Hpost :
    (create_post (ev_channel_id ev_thanks)
       (turn_reply cfg0 ev_thanks (empty_state world_post_down)).1
       (turn_print cfg0 ev_thanks (empty_state world_post_down)).2).1
    = Raise (DriverError "403")) by (vm_compute; reflexivity).
  split.
  - rewrite (proj1 (X8_failed_post cfg0 ev_thanks
                      (empty_state (quiet_world http_surrogate 11000000))
                      UnicodeEncodeError) Hraise).
    vm_compute. reflexivity.
  - destruct (proj2 (X8_failed_post cfg0 ev_thanks
                       (empty_state world_post_down) (DriverError "403"))
                Hprint Hpost) as (_ & Hcur & Hctx).
    split; [exact Hcur|].
    etransitivity; [exact (Hctx eq_refl) | vm_compute; reflexivity].
Defined.

(** X9, run: Alice's entry is from second 10, the turn is at second 999. *)
Lemma X9_expired_context_is_ignored_witness :
  process_event cfg0 ev_thanks (state_alice http_ok 999000000)
  = process_event cfg0 ev_thanks
      (with_user_context (state_alice http_ok 999000000)
         (<["alice" := (CtxStr "", 10000000)]>
            (user_context (state_alice http_ok 999000000)))).
Proof.
  assert (Hon : ENABLE_CONTEXT_TRACKING cfg0 = true) by reflexivity.
  assert (Hentry :
    user_context (state_alice http_ok 999000000) !! ev_sender_username ev_thanks
    = Some (CtxTokens [7; 8], 10000000)) by (vm_compute; reflexivity).
  assert (Hexp :
    (datetime_now (world (state_alice http_ok 999000000))).1 - 10000000
    > CONTEXT_EXPIRATION_DURATION) by (vm_compute; reflexivity).
  assert (Hprint :
    (turn_print cfg0 ev_thanks (state_alice http_ok 999000000)).1 = Ok tt)
    by (vm_compute; reflexivity).
  destruct (X9_expired_context_is_ignored cfg0 ev_thanks
              (state_alice http_ok 999000000) (CtxTokens [7; 8]) 10000000
              Hon Hentry Hexp) as (_ & _ & _ & _ & Hall).
  exact (Hall Hprint).
Defined.

(** When the print of line 122 raises, the turn ends before line 126 and
    the stored context, expired or not, stays in [user_context]: the final
    states of the two runs then differ in the sender's entry. *)
Example stored_context_survives_failed_print :
  process_event cfg0 ev_thanks (state_alice http_surrogate 999000000)
  = (Raise UnicodeEncodeError, state_alice http_surrogate 999000000)
  /\ user_context
       (process_event cfg0 ev_thanks
          (state_alice http_surrogate 999000000)).2 !! "alice"
     = Some (CtxTokens [7; 8], 10000000)
  /\ user_context
       (process_event cfg0 ev_thanks
          (with_user_context (state_alice http_surrogate 999000000)
             (<["alice" := (CtxStr "", 10000000)]>
                (user_context (state_alice http_surrogate 999000000))))).2
       !! "alice"
     = Some (CtxStr "", 10000000).
Proof. vm_compute. repeat split; reflexivity. Qed.

(** X10, run: tracking off, Alice's stored context survives the turn. *)
Lemma X10_tracking_off_witness :
  user_context
    (process_event cfg_off ev_thanks (state_alice http_ok 11000000)).2
  = user_context (state_alice http_ok 11000000).
Proof.
  rewrite (proj1 (X10_tracking_off cfg_off ev_thanks
                    (state_alice http_ok 11000000) eq_refl)).
  vm_compute. reflexivity.
Defined.

(** X11, run: the cursor of [dm-alice] and Alice's entry survive a turn. *)
Lemma X11_entries_are_kept_witness :
  is_Some (last_processed_timestamp
             (process_event cfg0 ev_200 state_cursor_300).2 !! "dm-alice")
  /\ is_Some (user_context
                (process_event cfg0 ev_200 (state_alice http_500 11000000)).2
                !! "alice").
Proof.
  split.
  - apply (proj1 (X11_entries_are_kept cfg0 ev_200 state_cursor_300)).
    vm_compute. eauto.
  - apply (proj1 (proj2 (X11_entries_are_kept cfg0 ev_200
                           (state_alice http_500 11000000)))).
    vm_compute. eauto.
Defined.

(** X12, run: the bot's own reply is passed over although the lookup would
    fail, and so is Alice's post from before the boot, after its line. *)
Lemma X12_skipped_post_costs_nothing_witness :
  handle_post cfg0 dm_alice posts_mixed "p2" (empty_state world_lookup_down)
  = (Ok tt, empty_state world_lookup_down)
  /\ handle_post cfg0 dm_alice posts_mixed "p0" (empty_state world_lookup_down)
     = call (print (line_skipping_old dm_alice "@bot anyone?"))
         (empty_state world_lookup_down).
Proof.
  assert (Hp2 : pl_posts posts_mixed !! "p2" = Some (MkPost "bot-id" "hi there" 250))
    by (vm_compute; reflexivity).
  assert (Hp0 : pl_posts posts_mixed !! "p0"
                = Some (MkPost "alice-id" "@bot anyone?" 50))
    by (vm_compute; reflexivity).
  split.
  - apply (proj1 (X12_skipped_post_costs_nothing cfg0 dm_alice posts_mixed
                    "p2" (MkPost "bot-id" "hi there" 250)
                    (empty_state world_lookup_down) Hp2)).
    reflexivity.
  - apply (proj2 (X12_skipped_post_costs_nothing cfg0 dm_alice posts_mixed
                    "p0" (MkPost "alice-id" "@bot anyone?" 50)
                    (empty_state world_lookup_down) Hp0)
             ltac:(discriminate) 50).
    + vm_compute. reflexivity.
    + vm_compute. reflexivity.
Defined.

(** X13, run: the text of Alice's post ends in a lone surrogate. *)
Lemma X13_handle_post_raises_witness :
  exists post,
    pl_posts posts_surrogate !! "p5" = Some post
    /\ exists text w,
         (print text w).1 = Raise UnicodeEncodeError
         /\ message_queue
              (handle_post cfg0 dm_alice posts_surrogate "p5"
                 (empty_state (world_mixed dm_alice))).2 = [].
Proof.
  assert (Hraise :
    (handle_post cfg0 dm_alice posts_surrogate "p5"
       (empty_state (world_mixed dm_alice))).1 = Raise UnicodeEncodeError)
    by (vm_compute; reflexivity).
  destruct (X13_handle_post_raises cfg0 dm_alice posts_surrogate "p5"
              (empty_state (world_mixed dm_alice)) UnicodeEncodeError Hraise)
    as [(Hnone & _)|(post & Hpost & _ & Hways)].
  - vm_compute in Hnone. discriminate.
  - exists post. split; [exact Hpost|].
    destruct Hways as [(Hfloat & _)|[(Huser & _)|(text & w & Hprint & Hq)]].
    + assert (Hp5 : pl_posts posts_surrogate !! "p5"
                    = Some (MkPost "alice-id"
                              (String.append "hi " lone_surrogate) 300))
        by (vm_compute; reflexivity).
      rewrite Hp5 in Hpost. injection Hpost as <-.
      vm_compute in Hfloat. discriminate.
    + vm_compute in Huser. discriminate.
    + exists text, w. split; [exact Hprint|]. vm_compute. reflexivity.
Defined.

(** X14, run: Alice's post is handled twice with no cursor in between. *)
Lemma X14_enqueued_twice_witness :
  message_queue
    (handle_post cfg0 dm_alice posts_mixed "p3"
       (handle_post cfg0 dm_alice posts_mixed "p3"
          (empty_state (world_mixed dm_alice))).2).2
  = [] ++ [ev_thanks; ev_thanks].
Proof.
  apply (X14_enqueued_twice cfg0 dm_alice posts_mixed "p3"
           (MkPost "alice-id" "thanks" 300) 300
           (MkUser "alice") (world_mixed dm_alice) (world_mixed dm_alice)
           (Ok tt) (world_mixed dm_alice)
           (MkUser "alice") (world_mixed dm_alice)
           (empty_state (world_mixed dm_alice))).
  - vm_compute. reflexivity.
  - discriminate.
  - vm_compute. reflexivity.
  - vm_compute. discriminate.
  - intros last Hlast. vm_compute in Hlast. discriminate.
  - left. reflexivity.
  - reflexivity.
  - vm_compute. reflexivity.
  - vm_compute. reflexivity.
  - reflexivity.
  - vm_compute. reflexivity.
Defined.


(** X16, run: Alice's post in [town-square] mentions the bot. *)
Lemma X16_mentioned_post_enqueued_witness :
  handle_post cfg0 town_square (MkPostList ["p1"] {[ "p1" := post_hello ]})
    "p1" (empty_state (world_one_down [town_square]))
  = (Ok tt,
     with_message_queue
       (with_world (empty_state (world_one_down [town_square]))
          (world_one_down [town_square]))
       ([] ++ [MkEvent "town-square" "@bot hello" "alice" 200])).
Proof.
  rewrite (X16_mentioned_post_enqueued cfg0 town_square
             (MkPostList ["p1"] {[ "p1" := post_hello ]}) "p1" post_hello
             (MkUser "alice") (world_one_down [town_square])
             (world_one_down [town_square])
             (empty_state (world_one_down [town_square]))).
  - vm_compute. reflexivity.
  - vm_compute. reflexivity.
  - discriminate.
  - vm_compute. discriminate.
  - vm_compute. discriminate.
  - intros last Hlast. vm_compute in Hlast. discriminate.
  - reflexivity.
  - vm_compute. reflexivity.
  - vm_compute. reflexivity.
Defined.

(** X18, run: three cycles in which the fetch for [off-topic] fails each time. *)
Lemma X18_poll_entries_kept_witness :
  is_Some (last_poll_time (poll_cycles cfg0 3%nat state_polled_before).2
             !! "off-topic").
Proof.
  apply (proj2 (@X18_poll_entries_kept Script _ _ cfg0) 3%nat
           state_polled_before).
  vm_compute. eauto.
Defined.

